(** * github-stars-this-year: the pagination, counting and ranking core of index.ts

    A shallow embedding of [src/index.ts].  The two paginated loops
    ([getPublicRepos], [getStarsThisYear]) are functions that return the
    list of requests they issued together with their outcome; the remote
    API is a pure function from a request to its response, the process
    clock and the order in which promises settle are explicit inputs. *)

From Stdlib Require Import ZArith List String Ascii Bool Lia Permutation Sorted DecimalString.
From Stdlib Require DecimalFacts DecimalPos DecimalN.
Import ListNotations.
Open Scope Z_scope.

(** ** The JavaScript built-ins the program uses *)

Module JS.

(** [a < b] on two strings: lexicographic on code units.  Every string
    the program compares is ASCII (ISO-8601 timestamps), where code
    units and bytes coincide. *)
Definition str_lt (a b : string) : bool := String.ltb a b.

(** [a >= b] on two strings is the negation of [a < b]. *)
Definition str_ge (a b : string) : bool := negb (str_lt a b).

(** [String(n)] for an integer-valued number. *)
Definition String_of (n : Z) : string := NilZero.string_of_int (Z.to_int n).

(** [s.length]. *)
Definition length_of (s : string) : Z := Z.of_nat (String.length s).

(** [Math.max(x, ...xs)] on a non-empty argument list. *)
Definition Math_max (x : Z) (xs : list Z) : Z := fold_left Z.max xs x.

(** [Array.prototype.sort(cmp)]: the sort is stable (ECMAScript 2019),
    so for a consistent comparator its result is the one of any stable
    sort; insertion from the right is the one written here.  [x] goes
    before the first [y] with [cmp x y <= 0]. *)
Fixpoint insert {A : Type} (cmp : A -> A -> Z) (x : A) (l : list A) : list A :=
  match l with
  | [] => [x]
  | y :: l' => if cmp x y <=? 0 then x :: y :: l' else y :: insert cmp x l'
  end.

Fixpoint Array_sort {A : Type} (cmp : A -> A -> Z) (l : list A) : list A :=
  match l with
  | [] => []
  | x :: l' => insert cmp x (Array_sort cmp l')
  end.

(** [Array.prototype.map] with the index the callback receives. *)
Fixpoint mapi_from {A B : Type} (f : nat -> A -> B) (i : nat) (l : list A) : list B :=
  match l with
  | [] => []
  | x :: l' => f i x :: mapi_from f (S i) l'
  end.

Definition Array_map {A B : Type} (f : nat -> A -> B) (l : list A) : list B :=
  mapi_from f 0%nat l.

(** The state a promise (or an [await] on it) ends in.  [Pending] is a
    promise that did not settle within the number of loop iterations
    the model was given. *)
Inductive Outcome (A : Type) : Type :=
| Returned (a : A)
| Threw (message : string)
| Pending.
Arguments Returned {A} a.
Arguments Threw {A} message.
Arguments Pending {A}.

Definition bind {A B : Type} (m : Outcome A) (k : A -> Outcome B) : Outcome B :=
  match m with
  | Returned a => k a
  | Threw e => Threw e
  | Pending => Pending
  end.

(** The reason of the first promise to reject, promises being visited
    in the order they settle. *)
Fixpoint first_rejection {A : Type} (order : list nat) (promises : list (Outcome A))
  : option string :=
  match order with
  | [] => None
  | i :: order' =>
      match nth_error promises i with
      | Some (Threw e) => Some e
      | _ => first_rejection order' promises
      end
  end.

(** The values of the promises, in the order of the array, when every
    one of them is fulfilled. *)
Fixpoint fulfilled_values {A : Type} (promises : list (Outcome A)) : option (list A) :=
  match promises with
  | [] => Some []
  | Returned a :: promises' =>
      match fulfilled_values promises' with
      | Some vs => Some (a :: vs)
      | None => None
      end
  | _ :: _ => None
  end.

(** [await Promise.all(promises)].  [order] lists indices of the array
    in the order the promises settle; a promise it does not list
    settles after the listed ones, in array order.  The result rejects
    with the reason of the first promise to reject, fulfils with the
    values in array order when all fulfil, and stays pending
    otherwise. *)
Definition Promise_all {A : Type} (order : list nat) (promises : list (Outcome A))
  : Outcome (list A) :=
  match first_rejection (order ++ seq 0 (List.length promises)) promises with
  | Some e => Threw e
  | None =>
      match fulfilled_values promises with
      | Some vs => Returned vs
      | None => Pending
      end
  end.

End JS.

Import JS.

Notation "x <- m ;; k" := (JS.bind m (fun x => k))
  (at level 100, m at next level, right associativity).

(** ** The remote API *)

Module Repository.
Record t : Type := mk {
  name : string;
  full_name : string;
  stargazers_count : Z;
  html_url : string;
  private : bool
}.
End Repository.

Module User.
Record t : Type := mk { login : string }.
End User.

Module StargazerEvent.
Record t : Type := mk {
  starred_at : string;
  user : User.t
}.
End StargazerEvent.

Module RepoStarResult.
Record t : Type := mk {
  name : string;
  fullName : string;
  totalStars : Z;
  starsThisYear : Z;
  url : string
}.
End RepoStarResult.

(** What the program reads of a [Response]: [status], [statusText] and
    the decoded body [json()]. *)
Record Response (A : Type) : Type := mkResponse {
  status : Z;
  statusText : string;
  json : list A
}.
Arguments mkResponse {A} status statusText json.
Arguments status {A} r.
Arguments statusText {A} r.
Arguments json {A} r.

(** [response.ok]: the status is in the range 200-299. *)
Definition ok {A : Type} (response : Response A) : bool :=
  (200 <=? status response) && (status response <=? 299).

(** The two requests of the program:
    [GET /users/{username}/repos?type=owner&per_page={perPage}&page={page}] and
    [GET /repos/{owner}/{repo}/stargazers?per_page={perPage}&page={page}]. *)
Inductive Request : Type :=
| ListRepos (username : string) (perPage page : Z)
| ListStargazers (owner repo : string) (perPage page : Z).

(** The remote data set: what each endpoint answers to each request. *)
Record Remote : Type := mkRemote {
  fetchRepos : string -> Z -> Z -> Response Repository.t;
  fetchStargazers : string -> string -> Z -> Z -> Response StargazerEvent.t
}.

(** The date built-ins as the program observes them: the local calendar
    year [new Date().getFullYear()] shows at line 121 ([yearAtStart]) and
    when the call of [getStarsThisYear] made by the task of a given index
    evaluates it at line 71 ([getFullYear]), and
    [new Date(year, 0, 1).toISOString()], which depends on the time zone
    of the process. *)
Record Clock : Type := mkClock {
  yearAtStart : Z;
  getFullYear : nat -> Z;
  startOfYearISO : Z -> string
}.

(** ** index.ts *)

Definition perPage : Z := 100.

(** [getPublicRepos], the [while (true)] loop of lines 50-65 with its
    variables [repos] and [page]; the first component is the list of the
    requests issued, in order.  [fuel] bounds the number of iterations
    followed; a loop that needs more is [Pending]. *)
Fixpoint getPublicRepos_loop (fuel : nat) (remote : Remote) (username : string)
    (repos : list Repository.t) (page : Z)
  : list Request * Outcome (list Repository.t) :=
  match fuel with
  | O => ([], Pending)
  | S fuel' =>
      let request := ListRepos username perPage page in
      let response := fetchRepos remote username perPage page in
      if negb (ok response) then
        ([request], Threw ("Failed to fetch repositories: " ++ statusText response))
      else
        let data := json response in
        if Z.of_nat (List.length data) =? 0 then ([request], Returned repos)
        else
          let repos' :=
            repos ++ filter (fun repo => negb (Repository.private repo)) data in
          if Z.of_nat (List.length data) <? perPage then ([request], Returned repos')
          else
            let (log, out) := getPublicRepos_loop fuel' remote username repos' (page + 1) in
            (request :: log, out)
  end.

Definition getPublicRepos (fuel : nat) (remote : Remote) (username : string)
  : list Request * Outcome (list Repository.t) :=
  getPublicRepos_loop fuel remote username [] 1.

(** The [for (const star of data)] loop of lines 97-101. *)
Definition count_page (startOfYear : string) (data : list StargazerEvent.t)
    (starsThisYear : Z) : Z :=
  fold_left
    (fun n star =>
       if str_ge (StargazerEvent.starred_at star) startOfYear then n + 1 else n)
    data starsThisYear.

(** Lines 104-105: [oldestStar && oldestStar.starred_at < startOfYear]. *)
Definition oldest_before (startOfYear : string) (data : list StargazerEvent.t) : bool :=
  match nth_error data (List.length data - 1)%nat with
  | Some oldestStar => str_lt (StargazerEvent.starred_at oldestStar) startOfYear
  | None => false
  end.

(** [getStarsThisYear], the [while (true)] loop of lines 77-109 with its
    variables [starsThisYear] and [page]. *)
Fixpoint getStarsThisYear_loop (fuel : nat) (remote : Remote) (owner repo : string)
    (startOfYear : string) (starsThisYear : Z) (page : Z)
  : list Request * Outcome Z :=
  match fuel with
  | O => ([], Pending)
  | S fuel' =>
      let request := ListStargazers owner repo perPage page in
      let response := fetchStargazers remote owner repo perPage page in
      if negb (ok response) then
        if status response =? 404 then ([request], Returned 0)
        else
          ([request],
           Threw ("Failed to fetch stargazers for " ++ owner ++ "/" ++ repo ++ ": "
                    ++ statusText response))
      else
        let data := json response in
        if Z.of_nat (List.length data) =? 0 then ([request], Returned starsThisYear)
        else
          let starsThisYear' := count_page startOfYear data starsThisYear in
          if oldest_before startOfYear data then ([request], Returned starsThisYear')
          else if Z.of_nat (List.length data) <? perPage then ([request], Returned starsThisYear')
          else
            let (log, out) :=
              getStarsThisYear_loop fuel' remote owner repo startOfYear
                starsThisYear' (page + 1) in
            (request :: log, out)
  end.

(** Lines 71-72: the boundary the call compares against. *)
Definition startOfYear (clock : Clock) (task : nat) : string :=
  let currentYear := getFullYear clock task in
  startOfYearISO clock currentYear.

Definition getStarsThisYear (fuel : nat) (clock : Clock) (remote : Remote)
    (task : nat) (owner repo : string) : list Request * Outcome Z :=
  getStarsThisYear_loop fuel remote owner repo (startOfYear clock task) 0 1.

(** *** The body of [import.meta.main], lines 121-177

    The guard of lines 115-119 ends the process with status 1 when
    [GITHUB_TOKEN] is not set; what follows is the run of a process in
    which it is set.  [username] is what [getAuthenticatedUser] returned.
    The [console.log] lines are not part of the model. *)

(** Line 133. *)
Definition starredRepos (repos : list Repository.t) : list Repository.t :=
  filter (fun repo => 0 <? Repository.stargazers_count repo) repos.

(** Lines 145-151, the object a task returns. *)
Definition resultOf (repo : Repository.t) (starsThisYear : Z) : RepoStarResult.t :=
  {| RepoStarResult.name := Repository.name repo;
     RepoStarResult.fullName := Repository.full_name repo;
     RepoStarResult.totalStars := Repository.stargazers_count repo;
     RepoStarResult.starsThisYear := starsThisYear;
     RepoStarResult.url := Repository.html_url repo |}.

(** Lines 140-152, the function each task runs. *)
Definition task (fuel : nat) (clock : Clock) (remote : Remote) (username : string)
    (index : nat) (repo : Repository.t) : list Request * Outcome RepoStarResult.t :=
  let (log, out) :=
    getStarsThisYear fuel clock remote index username (Repository.name repo) in
  (log, starsThisYear <- out ;; Returned (resultOf repo starsThisYear)).

(** Line 139.  The limiter [pLimit(5)] decides when a task starts, not
    what it computes. *)
Definition tasks (fuel : nat) (clock : Clock) (remote : Remote) (username : string)
    (repos : list Repository.t) : list (list Request * Outcome RepoStarResult.t) :=
  Array_map (task fuel clock remote username) (starredRepos repos).

(** Line 158, the comparator and the sort. *)
Definition byStarsThisYear (a b : RepoStarResult.t) : Z :=
  RepoStarResult.starsThisYear b - RepoStarResult.starsThisYear a.

Definition sortResults (results : list RepoStarResult.t) : list RepoStarResult.t :=
  Array_sort byStarsThisYear results.

(** Lines 161-162. *)
Definition totalStarsThisYear (results : list RepoStarResult.t) : Z :=
  fold_left (fun sum r => sum + RepoStarResult.starsThisYear r) results 0.

Definition totalStarsAllTime (results : list RepoStarResult.t) : Z :=
  fold_left (fun sum r => sum + RepoStarResult.totalStars r) results 0.

(** Line 171. *)
Definition reposWithNewStars (results : list RepoStarResult.t) : list RepoStarResult.t :=
  filter (fun r => 0 <? RepoStarResult.starsThisYear r) results.

(** Line 174. *)
Definition top10 (withNewStars : list RepoStarResult.t) : list RepoStarResult.t :=
  firstn 10 withNewStars.

(** Lines 175-177, the three column widths of the table. *)
Record Widths : Type := mkWidths {
  maxNameLen : Z;
  maxStarsLen : Z;
  maxTotalLen : Z
}.

Definition widths (r : RepoStarResult.t) (rs : list RepoStarResult.t) : Widths :=
  {| maxNameLen :=
       Math_max (length_of (RepoStarResult.name r))
         (map (fun r => length_of (RepoStarResult.name r)) rs);
     maxStarsLen :=
       Math_max (length_of (String_of (RepoStarResult.starsThisYear r)))
         (map (fun r => length_of (String_of (RepoStarResult.starsThisYear r))) rs);
     maxTotalLen :=
       Math_max (length_of (String_of (RepoStarResult.totalStars r)))
         (map (fun r => length_of (String_of (RepoStarResult.totalStars r))) rs) |}.

(** The table of lines 172-188: the rows shown and their column widths;
    [None] when no repository has new stars. *)
Definition table (results : list RepoStarResult.t)
  : option (list RepoStarResult.t * Widths) :=
  match top10 (reposWithNewStars results) with
  | [] => None
  | r :: rs => Some (r :: rs, widths r rs)
  end.

Record Report : Type := mkReport {
  currentYear : Z;
  results : list RepoStarResult.t;
  summaryStarsThisYear : Z;
  summaryStarsAllTime : Z;
  shown : option (list RepoStarResult.t * Widths)
}.

(** Lines 158-177 on the array [Promise.all] gave. *)
Definition report (year : Z) (collected : list RepoStarResult.t) : Report :=
  let results := sortResults collected in
  {| currentYear := year;
     results := results;
     summaryStarsThisYear := totalStarsThisYear results;
     summaryStarsAllTime := totalStarsAllTime results;
     shown := table results |}.

(** [String.prototype.padStart(targetLength)] and [padEnd], with the
    default padding, a space: nothing is added to a string that already
    has the target length or more. *)
Fixpoint spaces (n : nat) : string :=
  match n with
  | O => EmptyString
  | S n' => String " " (spaces n')
  end.

Definition padStart (s : string) (targetLength : Z) : string :=
  (spaces (Z.to_nat (targetLength - length_of s)) ++ s)%string.

Definition padEnd (s : string) (targetLength : Z) : string :=
  (s ++ spaces (Z.to_nat (targetLength - length_of s)))%string.

(** Lines 179-187, the line printed for the row [repo] at position
    [index] of the table. *)
Definition row (w : Widths) (index : nat) (repo : RepoStarResult.t) : string :=
  let rank := padStart (String_of (Z.of_nat index + 1)) 2 in
  let name := padEnd (RepoStarResult.name repo) (maxNameLen w) in
  let stars := padStart (String_of (RepoStarResult.starsThisYear repo)) (maxStarsLen w) in
  let before := RepoStarResult.totalStars repo - RepoStarResult.starsThisYear repo in
  let beforeStr := padStart (String_of before) (maxTotalLen w) in
  let total := padStart (String_of (RepoStarResult.totalStars repo)) (maxTotalLen w) in
  ("   " ++ rank ++ ". " ++ name ++ "  +" ++ stars
     ++ " (" ++ beforeStr ++ " -> " ++ total ++ ")")%string.

(** The lines of the [forEach] of lines 179-187, none when there is no
    table. *)
Definition tableLines (results : list RepoStarResult.t) : list string :=
  match table results with
  | None => []
  | Some (rows, w) => Array_map (row w) rows
  end.

(** Lines 139-155: the tasks and [await Promise.all(tasks)]. *)
Definition aggregate (fuel : nat) (clock : Clock) (remote : Remote) (order : list nat)
    (username : string) (repos : list Repository.t) : Outcome (list RepoStarResult.t) :=
  Promise_all order (map snd (tasks fuel clock remote username repos)).

(** The requests of the tasks, task after task.  When a task throws the
    process ends, and a task then queued or in flight may have issued
    only some of the requests listed for it. *)
Definition stargazer_requests (fuel : nat) (clock : Clock) (remote : Remote)
    (username : string) (repos : list Repository.t) : list Request :=
  List.concat (map fst (tasks fuel clock remote username repos)).

Definition main (fuel : nat) (clock : Clock) (remote : Remote) (order : list nat)
    (username : string) : Outcome Report :=
  repos <- snd (getPublicRepos fuel remote username) ;;
  collected <- aggregate fuel clock remote order username repos ;;
  Returned (report (yearAtStart clock) collected).

(** ** Vocabulary of the statements *)

(** An event is in the window when its timestamp is not before the
    boundary. *)
Definition in_window (startOfYear : string) (star : StargazerEvent.t) : bool :=
  str_ge (StargazerEvent.starred_at star) startOfYear.

(** The number of events of a page that are in the window. *)
Definition count_in_window (startOfYear : string) (data : list StargazerEvent.t) : Z :=
  Z.of_nat (List.length (filter (in_window startOfYear) data)).

(** The message of the error of line 91. *)
Definition stargazersError (owner repo : string) (text : string) : string :=
  ("Failed to fetch stargazers for " ++ owner ++ "/" ++ repo ++ ": " ++ text)%string.

(** A request of the first page of a stargazer list. *)
Definition isFirstStargazerPage (request : Request) : bool :=
  match request with
  | ListStargazers _ _ _ page => page =? 1
  | ListRepos _ _ _ => false
  end.

(** The order of the ranking: [a] may stand before [b]. *)
Definition descending (a b : RepoStarResult.t) : Prop :=
  RepoStarResult.starsThisYear b <= RepoStarResult.starsThisYear a.

(** The sum of a list of numbers. *)
Definition sumZ (l : list Z) : Z := fold_right Z.add 0 l.

(** The results whose count of the window is [k]. *)
Definition withCount (k : Z) (l : list RepoStarResult.t) : list RepoStarResult.t :=
  filter (fun r => RepoStarResult.starsThisYear r =? k) l.

(** [w] is the greatest of the values of [f] on the rows. *)
Definition isMaxOver (f : RepoStarResult.t -> Z) (rows : list RepoStarResult.t) (w : Z)
  : Prop :=
  (forall r, In r rows -> f r <= w) /\ (exists r, In r rows /\ f r = w).

(** One boundary serves every call of the Window Counter of a run: the
    call of each task behaves as the loop run with that boundary. *)
Definition sharedBoundary (fuel : nat) (clock : Clock) (remote : Remote)
    (username : string) (repos : list Repository.t) : Prop :=
  exists boundary,
    forall index r,
      nth_error (starredRepos repos) index = Some r ->
      getStarsThisYear fuel clock remote index username (Repository.name r)
        = getStarsThisYear_loop fuel remote username (Repository.name r) boundary 0 1.

(** The pages [page], [page + 1], ... requested by [k] successive
    iterations of a loop. *)
Fixpoint pagesFrom (page : Z) (k : nat) : list Z :=
  match k with
  | O => []
  | S k' => page :: pagesFrom (page + 1) k'
  end.

(** The first [k] requests of the Repository Lister. *)
Definition listRequests (username : string) (k : nat) : list Request :=
  map (ListRepos username perPage) (pagesFrom 1 k).

(** A page of the repository list after which the loop goes on: served,
    and with no fewer items than the page size. *)
Definition full_page (remote : Remote) (username : string) (page : Z) : Prop :=
  ok (fetchRepos remote username perPage page) = true /\
  perPage <= Z.of_nat (List.length (json (fetchRepos remote username perPage page))).

(** The repositories of a page that are not private. *)
Definition public (remote : Remote) (username : string) (page : Z) : list Repository.t :=
  filter (fun repo => negb (Repository.private repo))
    (json (fetchRepos remote username perPage page)).

(** The events served on a stargazer page. *)
Definition eventsOf (remote : Remote) (owner repo : string) (page : Z)
  : list StargazerEvent.t :=
  json (fetchStargazers remote owner repo perPage page).

(** A stargazer page that is served with no fewer events than the page
    size. *)
Definition full_stargazer_page (remote : Remote) (owner repo : string) (page : Z) : Prop :=
  ok (fetchStargazers remote owner repo perPage page) = true /\
  perPage <= Z.of_nat (List.length (eventsOf remote owner repo page)).

(** A stargazer page after which the loop of [getStarsThisYear] requests
    the next one: full, and its last event not before the boundary. *)
Definition goes_on (remote : Remote) (owner repo s : string) (page : Z) : Prop :=
  full_stargazer_page remote owner repo page /\
  oldest_before s (eventsOf remote owner repo page) = false.

(** [a] is not older than [b]: the order of a listing that gives the
    newest event first. *)
Definition newer_first (a b : StargazerEvent.t) : Prop :=
  str_ge (StargazerEvent.starred_at a) (StargazerEvent.starred_at b) = true.

(** The check that a list of events gives the newest first, pair of
    neighbours by pair. *)
Fixpoint newest_firstb (l : list StargazerEvent.t) : bool :=
  match l with
  | [] => true
  | a :: l' =>
      match l' with
      | [] => true
      | b :: _ =>
          str_ge (StargazerEvent.starred_at a) (StargazerEvent.starred_at b)
          && newest_firstb l'
      end
  end.

(** The rows of the table of a report, none when there is no table. *)
Definition shownRows (rep : Report) : list RepoStarResult.t :=
  match shown rep with
  | Some (rows, _) => rows
  | None => []
  end.

(** A digit sequence that starts with a digit other than 0. *)
Definition leading_nonzero (d : Decimal.uint) : Prop :=
  match d with
  | Decimal.Nil | Decimal.D0 _ => False
  | _ => True
  end.

(** The length of every line of a table with the column widths [w]. *)
Definition lineLength (w : Widths) : Z :=
  17 + maxNameLen w + maxStarsLen w + 2 * maxTotalLen w.

(** ** Concrete remotes and clocks used to run the model *)

Module Examples.

Definition star (starred_at : string) : StargazerEvent.t :=
  StargazerEvent.mk starred_at (User.mk "octocat").

Definition respond {A : Type} (data : list A) : Response A := mkResponse 200 "OK" data.

Definition notFound {A : Type} : Response A := mkResponse 404 "Not Found" [].

Definition serverError {A : Type} : Response A :=
  mkResponse 500 "Internal Server Error" [].

(** A process in the UTC time zone whose clock shows [year] throughout. *)
Definition utc (year : Z) : Clock :=
  {| yearAtStart := year;
     getFullYear := fun _ => year;
     startOfYearISO := fun y => (String_of y ++ "-01-01T00:00:00.000Z")%string |}.

Definition boundary2025 : string := "2025-01-01T00:00:00.000Z".

(** Page 1: a hundred events whose timestamp is the boundary itself;
    page 2: two events, the older one from the year before. *)
Definition remote_boundary : Remote :=
  {| fetchRepos := fun _ _ _ => respond [];
     fetchStargazers := fun _ _ _ page =>
       if page =? 1 then respond (repeat (star boundary2025) 100)
       else if page =? 2 then
         respond [star "2025-01-01T00:00:00Z"; star "2024-12-31T23:59:59Z"]
       else respond [] |}.

(** Page 1: a hundred events of the window; page 2: a 404. *)
Definition remote_late404 : Remote :=
  {| fetchRepos := fun _ _ _ => respond [];
     fetchStargazers := fun _ _ _ page =>
       if page =? 1 then respond (repeat (star "2025-06-01T12:00:00Z") 100)
       else notFound |}.

Definition repoA : Repository.t :=
  Repository.mk "A" "ryoppippi/A" 5 "https://github.com/ryoppippi/A" false.

Definition repoB : Repository.t :=
  Repository.mk "B" "ryoppippi/B" 10 "https://github.com/ryoppippi/B" false.

Definition repoC : Repository.t :=
  Repository.mk "C" "ryoppippi/C" 0 "https://github.com/ryoppippi/C" false.

(** The account of the example of the specification: A with 5 stars of
    which 3 in 2025, B with 10 stars all of 2024, C with none. *)
Definition remote_abc : Remote :=
  {| fetchRepos := fun _ _ page =>
       if page =? 1 then respond [repoA; repoB; repoC] else respond [];
     fetchStargazers := fun _ repo _ page =>
       if negb (page =? 1) then respond []
       else if String.eqb repo "A" then
         respond [star "2025-05-02T08:00:00Z"; star "2025-03-09T10:30:00Z";
                  star "2025-01-01T00:00:00Z"; star "2024-11-20T17:45:10Z";
                  star "2024-02-29T06:15:00Z"]
       else if String.eqb repo "B" then
         respond (repeat (star "2024-07-07T07:07:07Z") 10)
       else notFound |}.

(** The stargazers of B cannot be read: the server answers 500. *)
Definition remote_broken : Remote :=
  {| fetchRepos := fetchRepos remote_abc;
     fetchStargazers := fun owner repo perPage page =>
       if String.eqb repo "B" then serverError
       else fetchStargazers remote_abc owner repo perPage page |}.

(** The account does not exist: the repository list answers 404. *)
Definition remote_no_user : Remote :=
  {| fetchRepos := fun _ _ _ => notFound;
     fetchStargazers := fun _ _ _ _ => notFound |}.

(** Two repositories with the same single stargazer event. *)
Definition remote_twins : Remote :=
  {| fetchRepos := fun _ _ page =>
       if page =? 1 then respond [repoA; repoB] else respond [];
     fetchStargazers := fun _ _ _ page =>
       if page =? 1 then respond [star "2025-06-01T12:00:00Z"] else respond [] |}.

(** A repository with one star. *)
Definition repoNamed (name : string) : Repository.t :=
  Repository.mk name ("ryoppippi/" ++ name) 1 ("https://github.com/ryoppippi/" ++ name) false.

Definition six : list Repository.t :=
  map repoNamed ["a"; "b"; "c"; "d"; "e"; "f"]%string.

(** Six repositories, each with the same single stargazer event. *)
Definition remote_six : Remote :=
  {| fetchRepos := fun _ _ page => if page =? 1 then respond six else respond [];
     fetchStargazers := fun _ _ _ page =>
       if page =? 1 then respond [star "2025-06-01T12:00:00Z"] else respond [] |}.

(** A UTC process started on the last evening of 2025: the five tasks
    the limiter starts at once read the clock before midnight, the tasks
    started later read it after midnight. *)
Definition straddling : Clock :=
  {| yearAtStart := 2025;
     getFullYear := fun index => if (index <? 5)%nat then 2025 else 2026;
     startOfYearISO := startOfYearISO (utc 2025) |}.

(** A hundred repositories on page 1, none on page 2. *)
Definition remote_full_page : Remote :=
  {| fetchRepos := fun _ _ page =>
       if page =? 1 then respond (repeat repoA 100) else respond [];
     fetchStargazers := fetchStargazers remote_abc |}.

(** A hundred repositories on page 1, a 500 on page 2. *)
Definition remote_list_breaks : Remote :=
  {| fetchRepos := fun _ _ page =>
       if page =? 1 then respond (repeat repoA 100) else serverError;
     fetchStargazers := fetchStargazers remote_abc |}.

Definition repoSecret : Repository.t :=
  Repository.mk "S" "ryoppippi/S" 42 "https://github.com/ryoppippi/S" true.

(** An account with a private repository between two public ones. *)
Definition remote_with_private : Remote :=
  {| fetchRepos := fun _ _ page =>
       if page =? 1 then respond [repoA; repoSecret; repoB] else respond [];
     fetchStargazers := fetchStargazers remote_abc |}.

(** A remote that answers every stargazer page with the same hundred
    events of the window. *)
Definition remote_endless : Remote :=
  {| fetchRepos := fetchRepos remote_abc;
     fetchStargazers := fun _ _ _ _ => respond (repeat (star "2025-06-01T12:00:00Z") 100) |}.

(** As [remote_boundary], with other answers for the pages after the
    second. *)
Definition remote_boundary_then_errors : Remote :=
  {| fetchRepos := fetchRepos remote_boundary;
     fetchStargazers := fun owner repo perPage page =>
       if page <=? 2 then fetchStargazers remote_boundary owner repo perPage page
       else serverError |}.

(** A stargazer list of 102 events of 2025 on two pages. *)
Definition remote_all_recent : Remote :=
  {| fetchRepos := fetchRepos remote_abc;
     fetchStargazers := fun _ _ _ page =>
       if page =? 1 then respond (repeat (star "2025-06-01T12:00:00Z") 100)
       else if page =? 2 then
         respond [star "2025-03-01T09:00:00Z"; star "2025-02-01T09:00:00Z"]
       else respond [] |}.

(** A stargazer list given newest first: a hundred events of June 2025,
    then ninety-nine of February 2025 and one of December 2024, then two
    older events on a third page. *)
Definition remote_newest_first : Remote :=
  {| fetchRepos := fetchRepos remote_abc;
     fetchStargazers := fun _ _ _ page =>
       if page =? 1 then respond (repeat (star "2025-06-01T12:00:00Z") 100)
       else if page =? 2 then
         respond (repeat (star "2025-02-01T12:00:00Z") 99 ++ [star "2024-12-01T12:00:00Z"])
       else if page =? 3 then
         respond [star "2024-06-01T12:00:00Z"; star "2023-06-01T12:00:00Z"]
       else respond [] |}.

(** An account whose repositories have no star. *)
Definition remote_no_stars : Remote :=
  {| fetchRepos := fun _ _ page =>
       if page =? 1 then respond [repoC; repoC] else respond [];
     fetchStargazers := fun _ _ _ _ => serverError |}.

(** A remote that answers every page of the repository list with the
    same hundred repositories. *)
Definition remote_endless_list : Remote :=
  {| fetchRepos := fun _ _ _ => respond (repeat repoA 100);
     fetchStargazers := fetchStargazers remote_abc |}.

(** The results of the six repositories of [six], in the order of the
    list: the count [n] for the first five, [last] for the sixth. *)
Definition six_results (n last : Z) : list RepoStarResult.t :=
  map (fun name => resultOf (repoNamed name) n) ["a"; "b"; "c"; "d"; "e"]%string
  ++ [resultOf (repoNamed "f") last].

End Examples.

(** * Properties *)

(** ** String comparison *)

Lemma str_lt_iff (a b : string) : str_lt a b = true <-> String.compare a b = Lt.
Proof.
  unfold str_lt, String.ltb. destruct (String.compare a b); split; congruence.
Qed.

Lemma str_ge_iff (a b : string) : str_ge a b = true <-> String.compare a b <> Lt.
Proof.
  unfold str_ge, str_lt, String.ltb.
  destruct (String.compare a b); simpl; split; congruence.
Qed.

Lemma str_ge_refl (a : string) : str_ge a a = true.
Proof.
  apply str_ge_iff. intro H.
  pose proof (String.compare_antisym a a) as E. rewrite H in E. discriminate.
Qed.

(** ** The counting loop of one page *)

Lemma count_page_filter (s : string) (data : list StargazerEvent.t) :
  forall n, count_page s data n = n + count_in_window s data.
Proof.
  unfold count_page, count_in_window.
  induction data as [|e data IH]; intro n; simpl.
  - lia.
  - rewrite IH. unfold in_window at 2.
    destruct (str_ge (StargazerEvent.starred_at e) s); simpl List.length; lia.
Qed.

Lemma oldest_before_last (s : string) (front : list StargazerEvent.t)
    (oldest : StargazerEvent.t) :
  oldest_before s (front ++ [oldest]) = str_lt (StargazerEvent.starred_at oldest) s.
Proof.
  unfold oldest_before.
  rewrite length_app. simpl List.length.
  replace (List.length front + 1 - 1)%nat with (List.length front) by lia.
  rewrite nth_error_app2 by lia. rewrite Nat.sub_diag. reflexivity.
Qed.

(** ** One iteration of the stargazer loop *)

Lemma getStarsThisYear_loop_step (fuel : nat) (remote : Remote) (owner repo s : string)
    (n page : Z) (front : list StargazerEvent.t) (oldest : StargazerEvent.t) :
  let response := fetchStargazers remote owner repo perPage page in
  let request := ListStargazers owner repo perPage page in
  let n' := n + count_in_window s (json response) in
  let next := getStarsThisYear_loop fuel remote owner repo s n' (page + 1) in
  ok response = true ->
  json response = front ++ [oldest] ->
  getStarsThisYear_loop (S fuel) remote owner repo s n page =
    if str_lt (StargazerEvent.starred_at oldest) s then ([request], Returned n')
    else if Z.of_nat (List.length (json response)) <? perPage then ([request], Returned n')
    else (request :: fst next, snd next).
Proof.
  intros response request n' next Hok Hdata.
  subst next n'. cbn [getStarsThisYear_loop].
  fold response. rewrite Hok. cbn [negb].
  assert (Hlen : (Z.of_nat (List.length (json response)) =? 0) = false).
  { rewrite Hdata, length_app. simpl List.length. apply Z.eqb_neq. lia. }
  rewrite Hlen, count_page_filter.
  rewrite Hdata at 1. rewrite oldest_before_last.
  destruct (str_lt (StargazerEvent.starred_at oldest) s); [reflexivity|].
  destruct (Z.of_nat (List.length (json response)) <? perPage); [reflexivity|].
  destruct (getStarsThisYear_loop fuel remote owner repo s
              (n + count_in_window s (json response)) (page + 1)); reflexivity.
Qed.

(** C1: an event is counted if and only if its timestamp is not before
    the window start; on a page that was served with its events, the
    whole page is counted before the early stop is looked at; the loop
    stops on that page, with no further request, when the last event of
    the page is strictly before the window start, and otherwise stops
    only when the page is short: a full page whose last event is at the
    boundary is followed by the request of the next page. *)
Theorem C1_window_counter_page :
  forall (fuel : nat) (remote : Remote) (owner repo s : string) (n page : Z)
         (front : list StargazerEvent.t) (oldest : StargazerEvent.t),
    let response := fetchStargazers remote owner repo perPage page in
    let request := ListStargazers owner repo perPage page in
    let n' := n + count_in_window s (json response) in
    let next := getStarsThisYear_loop fuel remote owner repo s n' (page + 1) in
    ok response = true ->
    json response = front ++ [oldest] ->
    (forall star k,
        count_page s [star] k = k + 1 <->
        String.compare (StargazerEvent.starred_at star) s <> Lt) /\
    (forall star k,
        count_page s [star] k = k <->
        String.compare (StargazerEvent.starred_at star) s = Lt) /\
    (String.compare (StargazerEvent.starred_at oldest) s = Lt ->
     getStarsThisYear_loop (S fuel) remote owner repo s n page
       = ([request], Returned n')) /\
    (String.compare (StargazerEvent.starred_at oldest) s <> Lt ->
     getStarsThisYear_loop (S fuel) remote owner repo s n page
       = if Z.of_nat (List.length (json response)) <? perPage
         then ([request], Returned n')
         else (request :: fst next, snd next)) /\
    (StargazerEvent.starred_at oldest = s ->
     perPage <= Z.of_nat (List.length (json response)) ->
     exists log,
       fst (getStarsThisYear_loop (S (S fuel)) remote owner repo s n page)
         = request :: ListStargazers owner repo perPage (page + 1) :: log).
Proof.
  intros fuel remote owner repo s n page front oldest response request n' next Hok Hdata.
  assert (Hone : forall star k,
             count_page s [star] k
               = if str_ge (StargazerEvent.starred_at star) s then k + 1 else k)
    by reflexivity.
  split; [|split; [|split; [|split]]].
  - intros star k. rewrite Hone, <- str_ge_iff.
    destruct (str_ge (StargazerEvent.starred_at star) s); split; intro H;
      try reflexivity; try discriminate; lia.
  - intros star k. rewrite Hone, <- str_lt_iff. unfold str_ge.
    destruct (str_lt (StargazerEvent.starred_at star) s); simpl; split; intro H;
      try reflexivity; try discriminate; lia.
  - intro Hlt. apply str_lt_iff in Hlt.
    rewrite (getStarsThisYear_loop_step fuel remote owner repo s n page front oldest Hok Hdata).
    fold response. rewrite Hlt. reflexivity.
  - intro Hge.
    rewrite (getStarsThisYear_loop_step fuel remote owner repo s n page front oldest Hok Hdata).
    fold response.
    destruct (str_lt (StargazerEvent.starred_at oldest) s) eqn:E; [|reflexivity].
    apply str_lt_iff in E. contradiction.
  - intros Heq Hfull.
    rewrite (getStarsThisYear_loop_step (S fuel) remote owner repo s n page front oldest Hok Hdata).
    fold response.
    assert (E : str_lt (StargazerEvent.starred_at oldest) s = false).
    { rewrite Heq. pose proof (str_ge_refl s) as R. unfold str_ge in R.
      destruct (str_lt s s); [discriminate R | reflexivity]. }
    rewrite E.
    assert (F : (Z.of_nat (List.length (json response)) <? perPage) = false)
      by (apply Z.ltb_ge; exact Hfull).
    rewrite F. cbn [fst].
    set (q := page + 1). cbn [getStarsThisYear_loop].
    repeat match goal with
           | |- context [if ?b then _ else _] => destruct b
           | |- context [let (_, _) := ?p in _] => destruct p
           end; cbn [fst]; eexists; reflexivity.
Qed.

(** At the boundary itself: the hundred events of page 1 are counted and
    page 2 is requested. *)
Lemma C1_window_counter_page_witness :
  exists log,
    fst (getStarsThisYear_loop 2 Examples.remote_boundary "ryoppippi" "repo"
           Examples.boundary2025 0 1)
      = ListStargazers "ryoppippi" "repo" perPage 1
          :: ListStargazers "ryoppippi" "repo" perPage (1 + 1) :: log.
Proof.
  refine (proj2 (proj2 (proj2 (proj2
    (C1_window_counter_page 0 Examples.remote_boundary "ryoppippi" "repo"
       Examples.boundary2025 0 1
       (repeat (Examples.star Examples.boundary2025) 99)
       (Examples.star Examples.boundary2025) _ _)))) _ _).
  - reflexivity.
  - reflexivity.
  - reflexivity.
  - vm_compute. discriminate.
Defined.

(** ** A response that is not ok ends the stargazer loop *)

Lemma not_ok_404 {A : Type} (response : Response A) :
  status response = 404 -> ok response = false.
Proof. unfold ok. intros ->. reflexivity. Qed.

(** Every request of the loop is for a page of the repository it was
    called on, and the loop ends with the first response that is not ok:
    with 0 on a 404, with an error naming [owner/repo] otherwise. *)
Lemma getStarsThisYear_loop_not_ok (remote : Remote) (owner repo s : string) (q : Z) :
  forall (fuel : nat) (n page : Z),
    In (ListStargazers owner repo perPage q)
       (fst (getStarsThisYear_loop fuel remote owner repo s n page)) ->
    ok (fetchStargazers remote owner repo perPage q) = false ->
    snd (getStarsThisYear_loop fuel remote owner repo s n page)
      = if status (fetchStargazers remote owner repo perPage q) =? 404
        then Returned 0
        else Threw ("Failed to fetch stargazers for " ++ owner ++ "/" ++ repo ++ ": "
                      ++ statusText (fetchStargazers remote owner repo perPage q)).
Proof.
  induction fuel as [|fuel IH]; intros n page Hin Hbad.
  - destruct Hin.
  - cbn [getStarsThisYear_loop] in *.
    destruct (ok (fetchStargazers remote owner repo perPage page)) eqn:Hok; cbn [negb] in *.
    + assert (Hne : q <> page) by (intros ->; congruence).
      assert (Hsingle : ~ In (ListStargazers owner repo perPage q)
                          [ListStargazers owner repo perPage page]).
      { intros [E|[]]. injection E as E. congruence. }
      repeat match type of Hin with
             | context [if ?b then _ else _] => destruct b
             end; cbn [fst] in Hin; try contradiction.
      destruct (getStarsThisYear_loop fuel remote owner repo s _ (page + 1))
        as [log out] eqn:Hrec.
      cbn [fst snd] in *. destruct Hin as [E|Hin].
      * injection E as E. congruence.
      * pose proof (IH (count_page s (json (fetchStargazers remote owner repo perPage page)) n)
                      (page + 1)) as IH'.
        rewrite Hrec in IH'. exact (IH' Hin Hbad).
    + assert (Hq : q = page).
      { destruct (status (fetchStargazers remote owner repo perPage page) =? 404);
          cbn [fst] in Hin; destruct Hin as [E|[]]; injection E as E; congruence. }
      subst q.
      destruct (status (fetchStargazers remote owner repo perPage page) =? 404);
        reflexivity.
Qed.

(** C2: when a page that the Window Counter requested is answered with
    status 404, on the first page or after pages that already counted
    events of the window, the call returns 0 and does not throw, and the
    task of the repository settles with a result whose count is 0. *)
Theorem C2_not_found_counts_zero :
  forall (fuel : nat) (clock : Clock) (remote : Remote) (index : nat)
         (username : string) (r : Repository.t) (page : Z),
    In (ListStargazers username (Repository.name r) perPage page)
       (fst (getStarsThisYear fuel clock remote index username (Repository.name r))) ->
    status (fetchStargazers remote username (Repository.name r) perPage page) = 404 ->
    snd (getStarsThisYear fuel clock remote index username (Repository.name r))
      = Returned 0 /\
    (forall e,
        snd (getStarsThisYear fuel clock remote index username (Repository.name r))
          <> Threw e) /\
    snd (task fuel clock remote username index r)
      = Returned
          {| RepoStarResult.name := Repository.name r;
             RepoStarResult.fullName := Repository.full_name r;
             RepoStarResult.totalStars := Repository.stargazers_count r;
             RepoStarResult.starsThisYear := 0;
             RepoStarResult.url := Repository.html_url r |}.
Proof.
  intros fuel clock remote index username r page Hin H404.
  assert (Hret : snd (getStarsThisYear fuel clock remote index username (Repository.name r))
                 = Returned 0).
  { unfold getStarsThisYear in *.
    rewrite (getStarsThisYear_loop_not_ok remote username (Repository.name r) _ page
               fuel 0 1 Hin (not_ok_404 _ H404)).
    rewrite H404. reflexivity. }
  split; [exact Hret|split].
  - intros e He. rewrite Hret in He. discriminate.
  - unfold task.
    destruct (getStarsThisYear fuel clock remote index username (Repository.name r))
      as [log out].
    cbn [snd] in *. rewrite Hret. reflexivity.
Qed.

(** A hundred stars of the window on page 1, then a 404 on page 2. *)
Lemma C2_not_found_counts_zero_witness :
  snd (getStarsThisYear 5 (Examples.utc 2025) Examples.remote_late404 0
         "ryoppippi" (Repository.name Examples.repoA))
    = Returned 0.
Proof.
  refine (proj1 (C2_not_found_counts_zero 5 (Examples.utc 2025) Examples.remote_late404 0
                   "ryoppippi" Examples.repoA 2 _ _)).
  - vm_compute. right. left. reflexivity.
  - reflexivity.
Defined.

(** ** The Repository Lister *)

Lemma getPublicRepos_loop_full (fuel : nat) (remote : Remote) (username : string)
    (repos : list Repository.t) (page : Z) :
  full_page remote username page ->
  getPublicRepos_loop (S fuel) remote username repos page
    = (ListRepos username perPage page
         :: fst (getPublicRepos_loop fuel remote username
                   (repos ++ public remote username page) (page + 1)),
       snd (getPublicRepos_loop fuel remote username
              (repos ++ public remote username page) (page + 1))).
Proof.
  intros [Hok Hfull]. cbn [getPublicRepos_loop]. rewrite Hok. cbn [negb].
  unfold perPage in *.
  destruct (Z.eqb_spec (Z.of_nat (List.length (json (fetchRepos remote username 100 page)))) 0);
    [lia|].
  destruct (Z.ltb_spec (Z.of_nat (List.length (json (fetchRepos remote username 100 page)))) 100);
    [lia|].
  unfold public, perPage.
  destruct (getPublicRepos_loop fuel remote username _ (page + 1)); reflexivity.
Qed.

Lemma getPublicRepos_loop_short (fuel : nat) (remote : Remote) (username : string)
    (repos : list Repository.t) (page : Z) :
  ok (fetchRepos remote username perPage page) = true ->
  Z.of_nat (List.length (json (fetchRepos remote username perPage page))) < perPage ->
  getPublicRepos_loop (S fuel) remote username repos page
    = ([ListRepos username perPage page], Returned (repos ++ public remote username page)).
Proof.
  intros Hok Hshort. cbn [getPublicRepos_loop]. rewrite Hok. cbn [negb].
  unfold public.
  destruct (json (fetchRepos remote username perPage page)) as [|repo data] eqn:Hdata.
  - simpl. rewrite app_nil_r. reflexivity.
  - destruct (Z.eqb_spec (Z.of_nat (List.length (repo :: data))) 0);
      [simpl List.length in *; lia|].
    destruct (Z.ltb_spec (Z.of_nat (List.length (repo :: data))) perPage); [reflexivity|lia].
Qed.

Lemma getPublicRepos_loop_prefix (remote : Remote) (username : string) :
  forall (k fuel : nat) (repos : list Repository.t) (page : Z),
    Forall (full_page remote username) (pagesFrom page k) ->
    getPublicRepos_loop (k + fuel) remote username repos page
      = (map (ListRepos username perPage) (pagesFrom page k)
           ++ fst (getPublicRepos_loop fuel remote username
                     (repos ++ flat_map (public remote username) (pagesFrom page k))
                     (page + Z.of_nat k)),
         snd (getPublicRepos_loop fuel remote username
                (repos ++ flat_map (public remote username) (pagesFrom page k))
                (page + Z.of_nat k))).
Proof.
  induction k as [|k IH]; intros fuel repos page Hfull.
  - cbn [pagesFrom map flat_map Nat.add app]. rewrite app_nil_r, Z.add_0_r.
    destruct (getPublicRepos_loop fuel remote username repos page); reflexivity.
  - cbn [pagesFrom] in Hfull. inversion Hfull as [|p ps Hp Hps]; subst.
    cbn [Nat.add]. rewrite (getPublicRepos_loop_full _ _ _ _ _ Hp).
    rewrite (IH fuel _ (page + 1) Hps).
    cbn [pagesFrom map flat_map fst snd app].
    rewrite <- app_assoc.
    replace (page + 1 + Z.of_nat k) with (page + Z.of_nat (S k)) by lia.
    reflexivity.
Qed.

Lemma pagesFrom_snoc (k : nat) :
  forall page, pagesFrom page (S k) = pagesFrom page k ++ [page + Z.of_nat k].
Proof.
  induction k as [|k IH]; intro page.
  - simpl. rewrite Z.add_0_r. reflexivity.
  - change (pagesFrom page (S (S k))) with (page :: pagesFrom (page + 1) (S k)).
    rewrite IH. cbn [pagesFrom app].
    replace (page + 1 + Z.of_nat k) with (page + Z.of_nat (S k)) by lia.
    reflexivity.
Qed.

(** The requests of the loop are for consecutive pages from [page] on. *)
Lemma getPublicRepos_loop_pages (remote : Remote) (username : string) :
  forall (fuel : nat) (repos : list Repository.t) (page : Z),
    fst (getPublicRepos_loop fuel remote username repos page)
      = map (ListRepos username perPage)
          (pagesFrom page
             (List.length (fst (getPublicRepos_loop fuel remote username repos page)))).
Proof.
  induction fuel as [|fuel IH]; intros repos page.
  - reflexivity.
  - cbn [getPublicRepos_loop].
    repeat match goal with
           | |- context [if ?b then _ else _] => destruct b
           end; try reflexivity.
    specialize (IH (repos ++ filter (fun repo => negb (Repository.private repo))
                             (json (fetchRepos remote username perPage page)))
                   (page + 1)).
    destruct (getPublicRepos_loop fuel remote username _ (page + 1)) as [log out].
    cbn [fst List.length pagesFrom map] in *. rewrite <- IH. reflexivity.
Qed.

(** C4: when the pages 1 to [k] of the repository list are full and page
    [k + 1] is served with fewer than 100 items, the Paginator requests
    the pages 1, 2, ..., [k + 1] and nothing more, and returns the public
    repositories of these pages; when page [k + 1] is empty, that is the
    requests of the full pages and exactly one more, for the empty page;
    and whatever the remote answers, the pages requested start at 1 and
    go up by 1. *)
Theorem C4_repository_pagination :
  forall (remote : Remote) (username : string) (k fuel : nat),
    Forall (full_page remote username) (pagesFrom 1 k) ->
    ok (fetchRepos remote username perPage (1 + Z.of_nat k)) = true ->
    Z.of_nat (List.length (json (fetchRepos remote username perPage (1 + Z.of_nat k))))
      < perPage ->
    (k < fuel)%nat ->
    getPublicRepos fuel remote username
      = (listRequests username (S k),
         Returned (flat_map (public remote username) (pagesFrom 1 (S k)))) /\
    (json (fetchRepos remote username perPage (1 + Z.of_nat k)) = [] ->
     getPublicRepos fuel remote username
       = (listRequests username k ++ [ListRepos username perPage (1 + Z.of_nat k)],
          Returned (flat_map (public remote username) (pagesFrom 1 k)))) /\
    (forall fuel',
        fst (getPublicRepos fuel' remote username)
          = listRequests username (List.length (fst (getPublicRepos fuel' remote username)))).
Proof.
  intros remote username k fuel Hfull Hok Hshort Hfuel.
  assert (Hrun : getPublicRepos fuel remote username
                 = (listRequests username k ++ [ListRepos username perPage (1 + Z.of_nat k)],
                    Returned (flat_map (public remote username) (pagesFrom 1 k)
                                ++ public remote username (1 + Z.of_nat k)))).
  { unfold getPublicRepos, listRequests.
    replace fuel with (k + S (fuel - S k))%nat by lia.
    rewrite (getPublicRepos_loop_prefix remote username k _ [] 1 Hfull).
    rewrite (getPublicRepos_loop_short _ _ _ _ _ Hok Hshort).
    reflexivity. }
  split; [|split].
  - rewrite Hrun. unfold listRequests. rewrite pagesFrom_snoc.
    rewrite map_app, flat_map_app. cbn [map flat_map]. rewrite app_nil_r.
    reflexivity.
  - intro Hempty. rewrite Hrun. unfold public at 2. rewrite Hempty.
    cbn [filter]. rewrite app_nil_r. reflexivity.
  - intro fuel'. unfold getPublicRepos, listRequests.
    apply getPublicRepos_loop_pages.
Qed.

(** A hundred repositories on page 1 and none on page 2: two requests. *)
Lemma C4_repository_pagination_witness :
  fst (getPublicRepos 3 Examples.remote_full_page "ryoppippi")
    = [ListRepos "ryoppippi" perPage 1; ListRepos "ryoppippi" perPage 2].
Proof.
  assert (Hfull : Forall (full_page Examples.remote_full_page "ryoppippi") (pagesFrom 1 1)).
  { constructor; [|constructor]. split; [reflexivity|]. vm_compute. discriminate. }
  assert (Hshort : Z.of_nat (List.length
                     (json (fetchRepos Examples.remote_full_page "ryoppippi" perPage
                              (1 + Z.of_nat 1)))) < perPage)
    by reflexivity.
  assert (Hfuel : (1 < 3)%nat) by lia.
  rewrite (proj1 (C4_repository_pagination Examples.remote_full_page "ryoppippi" 1 3
                    Hfull eq_refl Hshort Hfuel)).
  reflexivity.
Defined.

(** A response that is not ok ends the listing with an error. *)
Lemma getPublicRepos_loop_not_ok (remote : Remote) (username : string) (q : Z) :
  forall (fuel : nat) (repos : list Repository.t) (page : Z),
    In (ListRepos username perPage q)
       (fst (getPublicRepos_loop fuel remote username repos page)) ->
    ok (fetchRepos remote username perPage q) = false ->
    exists front,
      getPublicRepos_loop fuel remote username repos page
        = (front ++ [ListRepos username perPage q],
           Threw ("Failed to fetch repositories: "
                    ++ statusText (fetchRepos remote username perPage q))).
Proof.
  induction fuel as [|fuel IH]; intros repos page Hin Hbad.
  - destruct Hin.
  - cbn [getPublicRepos_loop] in *.
    destruct (ok (fetchRepos remote username perPage page)) eqn:Hok; cbn [negb] in *.
    + assert (Hsingle : ~ In (ListRepos username perPage q)
                          [ListRepos username perPage page]).
      { intros [E|[]]. injection E as E. congruence. }
      repeat match type of Hin with
             | context [if ?b then _ else _] => destruct b
             end; cbn [fst] in Hin; try contradiction.
      pose proof (IH (repos ++ filter (fun repo => negb (Repository.private repo))
                               (json (fetchRepos remote username perPage page)))
                     (page + 1)) as IH'.
      destruct (getPublicRepos_loop fuel remote username _ (page + 1)) as [log out].
      cbn [fst] in *. destruct Hin as [E|Hin].
      * injection E as E. congruence.
      * destruct (IH' Hin Hbad) as [front Hrec]. injection Hrec as -> ->.
        exists (ListRepos username perPage page :: front). reflexivity.
    + cbn [fst] in Hin. destruct Hin as [E|[]]. injection E as E. subst q.
      exists []. reflexivity.
Qed.

(** C5, as the code has it: a response of the repository list that is
    not ok, a 404 like any other, ends the loop at once, with no further
    request; the error is "Failed to fetch repositories: " followed by
    the status text, no list is returned, and the whole run ends with
    that error. *)
Theorem C5_listing_error_aborts :
  forall (fuel : nat) (clock : Clock) (remote : Remote) (order : list nat)
         (username : string) (page : Z),
    In (ListRepos username perPage page) (fst (getPublicRepos fuel remote username)) ->
    ok (fetchRepos remote username perPage page) = false ->
    (exists front,
        getPublicRepos fuel remote username
          = (front ++ [ListRepos username perPage page],
             Threw ("Failed to fetch repositories: "
                      ++ statusText (fetchRepos remote username perPage page)))) /\
    main fuel clock remote order username
      = Threw ("Failed to fetch repositories: "
                 ++ statusText (fetchRepos remote username perPage page)).
Proof.
  intros fuel clock remote order username page Hin Hbad.
  destruct (getPublicRepos_loop_not_ok remote username page fuel [] 1 Hin Hbad)
    as [front Hrun].
  split.
  - exists front. exact Hrun.
  - unfold main, getPublicRepos. rewrite Hrun. reflexivity.
Qed.

(** A 500 on the second page of the list. *)
Lemma C5_listing_error_aborts_witness :
  main 4 (Examples.utc 2025) Examples.remote_list_breaks [] "ryoppippi"
    = Threw "Failed to fetch repositories: Internal Server Error".
Proof.
  refine (proj2 (C5_listing_error_aborts 4 (Examples.utc 2025) Examples.remote_list_breaks
                   [] "ryoppippi" 2 _ _)).
  - vm_compute. right. left. reflexivity.
  - reflexivity.
Defined.

(** C5, as the specification has it, fails: on a 404 of the repository
    list the Repository Lister throws instead of returning an empty
    list. *)
Lemma C5_not_found_is_not_empty_list :
  status (fetchRepos Examples.remote_no_user "ghost" perPage 1) = 404 /\
  getPublicRepos 3 Examples.remote_no_user "ghost"
    = ([ListRepos "ghost" perPage 1], Threw "Failed to fetch repositories: Not Found") /\
  snd (getPublicRepos 3 Examples.remote_no_user "ghost") <> Returned [].
Proof.
  split; [reflexivity|split; [reflexivity|]].
  vm_compute. discriminate.
Qed.

(** ** Promises and tasks *)

Lemma nth_error_mapi_from {A B : Type} (f : nat -> A -> B) (l : list A) :
  forall (start i : nat),
    nth_error (mapi_from f start l) i = option_map (f (start + i)%nat) (nth_error l i).
Proof.
  induction l as [|x l IH]; intros start i.
  - destruct i; reflexivity.
  - destruct i as [|i]; cbn [mapi_from nth_error].
    + rewrite Nat.add_0_r. reflexivity.
    + rewrite IH. replace (S start + i)%nat with (start + S i)%nat by lia. reflexivity.
Qed.

Lemma length_mapi_from {A B : Type} (f : nat -> A -> B) (l : list A) :
  forall start, List.length (mapi_from f start l) = List.length l.
Proof.
  induction l as [|x l IH]; intro start; cbn [mapi_from List.length].
  - reflexivity.
  - rewrite IH. reflexivity.
Qed.

Lemma In_mapi_from {A B : Type} (f : nat -> A -> B) (l : list A) (y : B) :
  forall start,
    In y (mapi_from f start l) -> exists i x, In x l /\ y = f i x.
Proof.
  induction l as [|x l IH]; intros start Hin; cbn [mapi_from] in Hin.
  - destruct Hin.
  - destruct Hin as [E|Hin].
    + exists start, x. split; [left; reflexivity | symmetry; exact E].
    + destruct (IH _ Hin) as (i & x' & Hx' & E).
      exists i, x'. split; [right; exact Hx' | exact E].
Qed.

Lemma first_rejection_In {A : Type} (promises : list (Outcome A)) (e : string) :
  forall order, first_rejection order promises = Some e -> In (Threw e) promises.
Proof.
  induction order as [|i order IH]; cbn [first_rejection]; intro H.
  - discriminate.
  - destruct (nth_error promises i) as [[a|e'|]|] eqn:Hi; try (apply IH; exact H).
    injection H as ->. eapply nth_error_In. exact Hi.
Qed.

Lemma first_rejection_found {A : Type} (promises : list (Outcome A)) (i : nat) (e : string) :
  nth_error promises i = Some (Threw e) ->
  forall order, In i order -> exists e', first_rejection order promises = Some e'.
Proof.
  intros Hi. induction order as [|j order IH]; intros Hin.
  - destruct Hin.
  - cbn [first_rejection].
    destruct (nth_error promises j) as [[a|e'|]|] eqn:Hj.
    + destruct Hin as [->|Hin]; [congruence | exact (IH Hin)].
    + eexists. reflexivity.
    + destruct Hin as [->|Hin]; [congruence | exact (IH Hin)].
    + destruct Hin as [->|Hin]; [congruence | exact (IH Hin)].
Qed.

(** One rejected promise makes [Promise.all] reject, with the reason of
    one of the rejected promises, whatever the order of settlement. *)
Lemma Promise_all_rejects {A : Type} (promises : list (Outcome A)) (i : nat) (e : string) :
  nth_error promises i = Some (Threw e) ->
  forall order, exists e', Promise_all order promises = Threw e' /\ In (Threw e') promises.
Proof.
  intros Hi order.
  assert (Hin : In i (order ++ seq 0 (List.length promises))).
  { apply in_or_app. right. apply in_seq. split; [lia|].
    simpl. apply nth_error_Some. congruence. }
  destruct (first_rejection_found promises i e Hi _ Hin) as [e' He'].
  exists e'. unfold Promise_all. rewrite He'. split; [reflexivity|].
  eapply first_rejection_In. exact He'.
Qed.

(** An error of the stargazer loop is the one of line 91, for a page
    whose response is not ok and not a 404. *)
Lemma getStarsThisYear_loop_threw (remote : Remote) (owner repo s : string) (e : string) :
  forall (fuel : nat) (n page : Z),
    snd (getStarsThisYear_loop fuel remote owner repo s n page) = Threw e ->
    exists q,
      ok (fetchStargazers remote owner repo perPage q) = false /\
      status (fetchStargazers remote owner repo perPage q) <> 404 /\
      e = ("Failed to fetch stargazers for " ++ owner ++ "/" ++ repo ++ ": "
             ++ statusText (fetchStargazers remote owner repo perPage q))%string.
Proof.
  induction fuel as [|fuel IH]; intros n page H.
  - discriminate H.
  - cbn [getStarsThisYear_loop] in H.
    destruct (ok (fetchStargazers remote owner repo perPage page)) eqn:Hok; cbn [negb] in H.
    + repeat match type of H with
             | context [if ?b then _ else _] => destruct b
             end; try discriminate H.
      pose proof (IH (count_page s (json (fetchStargazers remote owner repo perPage page)) n)
                     (page + 1)) as IH'.
      destruct (getStarsThisYear_loop fuel remote owner repo s _ (page + 1)) as [log out].
      cbn [snd] in *. exact (IH' H).
    + destruct (Z.eqb_spec (status (fetchStargazers remote owner repo perPage page)) 404)
        as [E|E]; [discriminate H|].
      cbn [snd] in H. injection H as <-.
      exists page. repeat split; assumption.
Qed.

Lemma task_threw (fuel : nat) (clock : Clock) (remote : Remote) (username : string)
    (index : nat) (r : Repository.t) (e : string) :
  snd (task fuel clock remote username index r) = Threw e <->
  snd (getStarsThisYear fuel clock remote index username (Repository.name r)) = Threw e.
Proof.
  unfold task.
  destruct (getStarsThisYear fuel clock remote index username (Repository.name r))
    as [log [n|e'|]]; cbn [snd bind]; split; intro H; try discriminate H;
    injection H as ->; reflexivity.
Qed.

(** C6: when a page that the task of an eligible repository requested is
    answered with a status that is neither 2xx nor 404, the Window
    Counter throws an error that names [owner/repo] and carries the
    status text; the aggregation then rejects, whatever the order in
    which the tasks settle, with such an error of one of the eligible
    repositories, so no array of results is returned, and the run ends
    with an error. *)
Theorem C6_hard_error_aborts :
  forall (fuel : nat) (clock : Clock) (remote : Remote) (username : string)
         (repos : list Repository.t) (index : nat) (r : Repository.t) (page : Z),
    nth_error (starredRepos repos) index = Some r ->
    In (ListStargazers username (Repository.name r) perPage page)
       (fst (getStarsThisYear fuel clock remote index username (Repository.name r))) ->
    ok (fetchStargazers remote username (Repository.name r) perPage page) = false ->
    status (fetchStargazers remote username (Repository.name r) perPage page) <> 404 ->
    snd (getStarsThisYear fuel clock remote index username (Repository.name r))
      = Threw (stargazersError username (Repository.name r)
                 (statusText (fetchStargazers remote username (Repository.name r)
                                perPage page))) /\
    (forall order,
        exists r' page',
          In r' (starredRepos repos) /\
          aggregate fuel clock remote order username repos
            = Threw (stargazersError username (Repository.name r')
                       (statusText (fetchStargazers remote username (Repository.name r')
                                      perPage page')))) /\
    (forall order,
        snd (getPublicRepos fuel remote username) = Returned repos ->
        exists e, main fuel clock remote order username = Threw e).
Proof.
  intros fuel clock remote username repos index r page Hnth Hin Hbad H404.
  assert (Hthrew :
            snd (getStarsThisYear fuel clock remote index username (Repository.name r))
            = Threw (stargazersError username (Repository.name r)
                       (statusText (fetchStargazers remote username (Repository.name r)
                                      perPage page)))).
  { unfold getStarsThisYear in *.
    rewrite (getStarsThisYear_loop_not_ok remote username (Repository.name r) _ page
               fuel 0 1 Hin Hbad).
    destruct (Z.eqb_spec (status (fetchStargazers remote username (Repository.name r)
                                    perPage page)) 404); [contradiction|reflexivity]. }
  assert (Hagg : forall order,
             exists r' page',
               In r' (starredRepos repos) /\
               aggregate fuel clock remote order username repos
               = Threw (stargazersError username (Repository.name r')
                          (statusText (fetchStargazers remote username (Repository.name r')
                                         perPage page')))).
  { intro order. unfold aggregate.
    assert (Hi : nth_error (map snd (tasks fuel clock remote username repos)) index
                 = Some (Threw (stargazersError username (Repository.name r)
                                  (statusText (fetchStargazers remote username
                                                 (Repository.name r) perPage page))))).
    { rewrite nth_error_map. unfold tasks, Array_map.
      rewrite nth_error_mapi_from, Hnth. cbn [option_map Nat.add].
      f_equal. apply task_threw. exact Hthrew. }
    destruct (Promise_all_rejects _ _ _ Hi order) as (e' & Hall & Hmem).
    rewrite Hall.
    apply in_map_iff in Hmem. destruct Hmem as ([log out] & Hout & Hmem).
    cbn [snd] in Hout. subst out.
    apply In_mapi_from in Hmem. destruct Hmem as (i & r' & Hr' & Htask).
    assert (Hsnd : snd (task fuel clock remote username i r') = Threw e')
      by (rewrite <- Htask; reflexivity).
    apply task_threw in Hsnd. unfold getStarsThisYear in Hsnd.
    apply getStarsThisYear_loop_threw in Hsnd. destruct Hsnd as (q & _ & _ & ->).
    exists r', q. split; [exact Hr' | reflexivity]. }
  split; [exact Hthrew|split; [exact Hagg|]].
  intros order Hlist. destruct (Hagg order) as (r' & page' & _ & Hrej).
  eexists. unfold main. rewrite Hlist. cbn [bind]. rewrite Hrej. reflexivity.
Qed.

(** The stargazers of B answer 500: the run ends with the error of B,
    although A was counted. *)
Lemma C6_hard_error_aborts_witness :
  snd (getStarsThisYear 3 (Examples.utc 2025) Examples.remote_broken 1 "ryoppippi"
         (Repository.name Examples.repoB))
    = Threw "Failed to fetch stargazers for ryoppippi/B: Internal Server Error".
Proof.
  refine (proj1 (C6_hard_error_aborts 3 (Examples.utc 2025) Examples.remote_broken
                   "ryoppippi" [Examples.repoA; Examples.repoB; Examples.repoC]
                   1 Examples.repoB 1 _ _ _ _)).
  - reflexivity.
  - vm_compute. left. reflexivity.
  - reflexivity.
  - vm_compute. discriminate.
Defined.

(** ** The aggregation *)

Lemma fulfilled_values_map {A : Type} (promises : list (Outcome A)) :
  forall vs, fulfilled_values promises = Some vs -> promises = map Returned vs.
Proof.
  induction promises as [|[a|e|] promises IH]; intros vs H; cbn [fulfilled_values] in H;
    try discriminate H.
  - injection H as <-. reflexivity.
  - destruct (fulfilled_values promises) as [vs'|]; [|discriminate H].
    injection H as <-. cbn [map]. rewrite (IH vs' eq_refl). reflexivity.
Qed.

Lemma fulfilled_values_Returned {A : Type} (vs : list A) :
  fulfilled_values (map Returned vs) = Some vs.
Proof.
  induction vs as [|v vs IH]; cbn [map fulfilled_values].
  - reflexivity.
  - rewrite IH. reflexivity.
Qed.

Lemma Promise_all_Returned {A : Type} (order : list nat) (promises : list (Outcome A))
    (vs : list A) :
  Promise_all order promises = Returned vs -> promises = map Returned vs.
Proof.
  unfold Promise_all.
  destruct (first_rejection _ promises); [discriminate|].
  destruct (fulfilled_values promises) as [vs'|] eqn:H; [|discriminate].
  intro E. injection E as <-. apply fulfilled_values_map. exact H.
Qed.

Lemma first_rejection_none {A : Type} (vs : list A) :
  forall order, first_rejection order (map Returned vs) = None.
Proof.
  induction order as [|i order IH]; cbn [first_rejection].
  - reflexivity.
  - rewrite nth_error_map. destruct (nth_error vs i); exact IH.
Qed.

(** When every promise is fulfilled, [Promise.all] gives the values in
    the order of the array, whatever the order of settlement. *)
Lemma Promise_all_fulfils {A : Type} (order : list nat) (vs : list A) :
  Promise_all order (map Returned vs) = Returned vs.
Proof.
  unfold Promise_all. rewrite first_rejection_none, fulfilled_values_Returned.
  reflexivity.
Qed.

Lemma task_Returned (fuel : nat) (clock : Clock) (remote : Remote) (username : string)
    (index : nat) (r : Repository.t) (res : RepoStarResult.t) :
  snd (task fuel clock remote username index r) = Returned res ->
  exists n,
    snd (getStarsThisYear fuel clock remote index username (Repository.name r))
      = Returned n /\
    res = resultOf r n.
Proof.
  unfold task.
  destruct (getStarsThisYear fuel clock remote index username (Repository.name r))
    as [log [n|e|]]; cbn [snd bind]; intro H; try discriminate H.
  injection H as <-. exists n. split; reflexivity.
Qed.

Lemma task_log (fuel : nat) (clock : Clock) (remote : Remote) (username : string)
    (index : nat) (r : Repository.t) :
  fst (task fuel clock remote username index r)
    = fst (getStarsThisYear fuel clock remote index username (Repository.name r)).
Proof.
  unfold task.
  destruct (getStarsThisYear fuel clock remote index username (Repository.name r));
    reflexivity.
Qed.

(** The requests of the stargazer loop are for consecutive pages of its
    repository, from [page] on. *)
Lemma getStarsThisYear_loop_pages (remote : Remote) (owner repo s : string) :
  forall (fuel : nat) (n page : Z),
    fst (getStarsThisYear_loop fuel remote owner repo s n page)
      = map (ListStargazers owner repo perPage)
          (pagesFrom page
             (List.length (fst (getStarsThisYear_loop fuel remote owner repo s n page)))).
Proof.
  induction fuel as [|fuel IH]; intros n page.
  - reflexivity.
  - cbn [getStarsThisYear_loop].
    repeat match goal with
           | |- context [if ?b then _ else _] => destruct b
           end; try reflexivity.
    specialize (IH (count_page s (json (fetchStargazers remote owner repo perPage page)) n)
                   (page + 1)).
    destruct (getStarsThisYear_loop fuel remote owner repo s _ (page + 1)) as [log out].
    cbn [fst List.length pagesFrom map] in *. rewrite <- IH. reflexivity.
Qed.

Lemma getStarsThisYear_loop_settled (remote : Remote) (owner repo s : string)
    (fuel : nat) (n page : Z) :
  snd (getStarsThisYear_loop fuel remote owner repo s n page) <> Pending ->
  fst (getStarsThisYear_loop fuel remote owner repo s n page) <> [].
Proof.
  destruct fuel as [|fuel]; [intro H; exfalso; apply H; reflexivity|].
  intros _. cbn [getStarsThisYear_loop].
  repeat match goal with
         | |- context [if ?b then _ else _] => destruct b
         | |- context [let (_, _) := ?p in _] => destruct p
         end; cbn [fst]; discriminate.
Qed.

Lemma pagesFrom_ge (k : nat) : forall page p, In p (pagesFrom page k) -> page <= p.
Proof.
  induction k as [|k IH]; intros page p Hin; cbn [pagesFrom] in Hin.
  - destruct Hin.
  - destruct Hin as [<-|Hin]; [lia|]. apply IH in Hin. lia.
Qed.

Lemma first_page_once (owner repo : string) (k : nat) :
  List.length
    (filter isFirstStargazerPage
       (map (ListStargazers owner repo perPage) (pagesFrom 1 (S k)))) = 1%nat.
Proof.
  cbn [pagesFrom map filter isFirstStargazerPage]. rewrite Z.eqb_refl.
  cbn [List.length]. f_equal.
  assert (H : forall p, In p (pagesFrom (1 + 1) k) -> 2 <= p)
    by (intros p Hp; apply pagesFrom_ge in Hp; lia).
  induction (pagesFrom (1 + 1) k) as [|p ps IH]; [reflexivity|].
  cbn [map filter isFirstStargazerPage].
  destruct (Z.eqb_spec p 1) as [->|_].
  - specialize (H 1 (or_introl eq_refl)). lia.
  - apply IH. intros p' Hp'. apply H. right. exact Hp'.
Qed.

Lemma length_filter_concat {A : Type} (f : A -> bool) (ls : list (list A)) :
  Forall (fun l => List.length (filter f l) = 1%nat) ls ->
  List.length (filter f (List.concat ls)) = List.length ls.
Proof.
  induction 1 as [|l ls Hl _ IH]; [reflexivity|].
  cbn [List.concat List.length]. rewrite filter_app, length_app, Hl, IH. reflexivity.
Qed.

Lemma tasks_nth (fuel : nat) (clock : Clock) (remote : Remote) (username : string)
    (repos : list Repository.t) (i : nat) :
  nth_error (tasks fuel clock remote username repos) i
    = option_map (task fuel clock remote username i) (nth_error (starredRepos repos) i).
Proof.
  unfold tasks, Array_map. rewrite nth_error_mapi_from. reflexivity.
Qed.

Lemma tasks_In (fuel : nat) (clock : Clock) (remote : Remote) (username : string)
    (repos : list Repository.t) (t : list Request * Outcome RepoStarResult.t) :
  In t (tasks fuel clock remote username repos) ->
  exists i r,
    In r repos /\ 0 < Repository.stargazers_count r /\
    t = task fuel clock remote username i r.
Proof.
  unfold tasks, Array_map. intro Hin.
  apply In_mapi_from in Hin. destruct Hin as (i & r & Hr & ->).
  unfold starredRepos in Hr. apply filter_In in Hr. destruct Hr as [Hr Hpos].
  exists i, r. repeat split; [exact Hr | apply Z.ltb_lt; exact Hpos].
Qed.

(** Every stargazer request of a run is for a repository of the list
    with at least one star. *)
Lemma stargazer_requests_eligible (fuel : nat) (clock : Clock) (remote : Remote)
    (username : string) (repos : list Repository.t) (request : Request) :
  In request (stargazer_requests fuel clock remote username repos) ->
  exists r page,
    In r repos /\ 0 < Repository.stargazers_count r /\
    request = ListStargazers username (Repository.name r) perPage page.
Proof.
  unfold stargazer_requests. intro Hin.
  apply in_concat in Hin. destruct Hin as (log & Hlog & Hin).
  apply in_map_iff in Hlog. destruct Hlog as (t & <- & Ht).
  apply tasks_In in Ht. destruct Ht as (i & r & Hr & Hpos & ->).
  rewrite task_log in Hin. unfold getStarsThisYear in Hin.
  rewrite getStarsThisYear_loop_pages in Hin.
  apply in_map_iff in Hin. destruct Hin as (page & <- & _).
  exists r, page. repeat split; assumption.
Qed.

(** What the aggregation returns: one result per eligible repository, at
    the position of the repository, with the count of its call. *)
Lemma aggregate_length (fuel : nat) (clock : Clock) (remote : Remote) (order : list nat)
    (username : string) (repos : list Repository.t) (collected : list RepoStarResult.t) :
  aggregate fuel clock remote order username repos = Returned collected ->
  List.length collected = List.length (starredRepos repos).
Proof.
  unfold aggregate. intro Hagg. apply Promise_all_Returned in Hagg.
  rewrite <- (length_map Returned collected), <- Hagg, length_map.
  unfold tasks, Array_map. apply length_mapi_from.
Qed.

Lemma aggregate_nth (fuel : nat) (clock : Clock) (remote : Remote) (order : list nat)
    (username : string) (repos : list Repository.t) (collected : list RepoStarResult.t)
    (i : nat) (r : Repository.t) :
  aggregate fuel clock remote order username repos = Returned collected ->
  nth_error (starredRepos repos) i = Some r ->
  exists n,
    snd (getStarsThisYear fuel clock remote i username (Repository.name r)) = Returned n /\
    nth_error collected i = Some (resultOf r n).
Proof.
  unfold aggregate. intros Hagg Hnth. apply Promise_all_Returned in Hagg.
  assert (Hi : nth_error (map snd (tasks fuel clock remote username repos)) i
               = Some (snd (task fuel clock remote username i r)))
    by (rewrite nth_error_map, tasks_nth, Hnth; reflexivity).
  rewrite Hagg, nth_error_map in Hi.
  destruct (nth_error collected i) as [res|]; [|discriminate Hi].
  cbn [option_map] in Hi. injection Hi as Hi. symmetry in Hi.
  apply task_Returned in Hi. destruct Hi as (n & Hn & ->).
  exists n. split; [exact Hn | reflexivity].
Qed.

Lemma task_of_Returned (fuel : nat) (clock : Clock) (remote : Remote) (username : string)
    (index : nat) (r : Repository.t) (n : Z) :
  snd (getStarsThisYear fuel clock remote index username (Repository.name r)) = Returned n ->
  snd (task fuel clock remote username index r) = Returned (resultOf r n).
Proof.
  unfold task.
  destruct (getStarsThisYear fuel clock remote index username (Repository.name r))
    as [log out].
  cbn [snd]. intros ->. reflexivity.
Qed.

Lemma all_Returned {A : Type} (promises : list (Outcome A)) :
  (forall p, In p promises -> exists a, p = Returned a) ->
  exists vs, promises = map Returned vs.
Proof.
  induction promises as [|p promises IH]; intro H.
  - exists []. reflexivity.
  - destruct (H p (or_introl eq_refl)) as [a ->].
    destruct (IH (fun q Hq => H q (or_intror Hq))) as [vs ->].
    exists (a :: vs). reflexivity.
Qed.

(** When the call of every task returns, the aggregation returns. *)
Lemma aggregate_returns (fuel : nat) (clock : Clock) (remote : Remote) (order : list nat)
    (username : string) (repos : list Repository.t) :
  (forall i r,
      nth_error (starredRepos repos) i = Some r ->
      exists n,
        snd (getStarsThisYear fuel clock remote i username (Repository.name r))
          = Returned n) ->
  exists collected, aggregate fuel clock remote order username repos = Returned collected.
Proof.
  intro Hall. unfold aggregate.
  destruct (all_Returned (map snd (tasks fuel clock remote username repos))) as [vs Hvs].
  - intros p Hp. apply In_nth_error in Hp. destruct Hp as [i Hi].
    rewrite nth_error_map, tasks_nth in Hi.
    destruct (nth_error (starredRepos repos) i) as [r|] eqn:Hnth; [|discriminate Hi].
    cbn [option_map] in Hi. injection Hi as <-.
    destruct (Hall i r Hnth) as [n Hn].
    exists (resultOf r n). apply task_of_Returned. exact Hn.
  - exists vs. rewrite Hvs. apply Promise_all_fulfils.
Qed.

(** C7: in a run in which the call of the Window Counter returns for
    every listed repository with stars, the aggregation returns, and it
    returns as many results as there are listed repositories with a
    nonzero star count, the result at each position being the one of the
    eligible repository at that position with the count its call
    returned; the first stargazer page was requested once per eligible
    repository; and no stargazer request is made for a repository without
    stars. *)
Theorem C7_one_result_per_starred_repo :
  forall (fuel : nat) (clock : Clock) (remote : Remote) (order : list nat)
         (username : string) (repos : list Repository.t),
    Forall (fun r => 0 <= Repository.stargazers_count r) repos ->
    (forall i r,
        nth_error (starredRepos repos) i = Some r ->
        exists n,
          snd (getStarsThisYear fuel clock remote i username (Repository.name r))
            = Returned n) ->
    exists collected,
      aggregate fuel clock remote order username repos = Returned collected /\
      List.length collected
        = List.length (filter (fun r => negb (Repository.stargazers_count r =? 0)) repos) /\
      (forall i r,
          nth_error (starredRepos repos) i = Some r ->
          exists n,
            snd (getStarsThisYear fuel clock remote i username (Repository.name r))
              = Returned n /\
            nth_error collected i = Some (resultOf r n)) /\
      List.length
        (filter isFirstStargazerPage (stargazer_requests fuel clock remote username repos))
        = List.length (filter (fun r => negb (Repository.stargazers_count r =? 0)) repos) /\
      (forall request,
          In request (stargazer_requests fuel clock remote username repos) ->
          exists r page,
            In r repos /\ Repository.stargazers_count r <> 0 /\
            request = ListStargazers username (Repository.name r) perPage page).
Proof.
  intros fuel clock remote order username repos Hnonneg Hall.
  destruct (aggregate_returns fuel clock remote order username repos Hall)
    as [collected Hagg].
  exists collected. split; [exact Hagg|].
  pose proof (aggregate_length _ _ _ _ _ _ _ Hagg) as Hlen.
  pose proof (fun i r => aggregate_nth _ _ _ _ _ _ _ i r Hagg) as Hnth.
  unfold aggregate in Hagg. apply Promise_all_Returned in Hagg.
  assert (Hstarred : filter (fun r => negb (Repository.stargazers_count r =? 0)) repos
                     = starredRepos repos).
  { unfold starredRepos. apply filter_ext_in. intros r Hr.
    rewrite Forall_forall in Hnonneg. specialize (Hnonneg r Hr).
    destruct (Z.eqb_spec (Repository.stargazers_count r) 0);
      destruct (Z.ltb_spec 0 (Repository.stargazers_count r)); cbn [negb];
      try reflexivity; lia. }
  rewrite Hstarred.
  split; [exact Hlen|split; [exact Hnth|split]].
  - unfold stargazer_requests. rewrite length_filter_concat.
    + rewrite length_map. unfold tasks, Array_map. apply length_mapi_from.
    + apply Forall_forall. intros log Hlog.
      apply in_map_iff in Hlog. destruct Hlog as (t & <- & Ht).
      assert (Hout : In (snd t) (map Returned collected))
        by (rewrite <- Hagg; apply in_map; exact Ht).
      apply in_map_iff in Hout. destruct Hout as (res & Hres & _).
      apply tasks_In in Ht. destruct Ht as (i & r & _ & _ & ->).
      symmetry in Hres. apply task_Returned in Hres. destruct Hres as (n & Hn & _).
      rewrite task_log. unfold getStarsThisYear in *.
      rewrite getStarsThisYear_loop_pages.
      assert (Hne : fst (getStarsThisYear_loop fuel remote username (Repository.name r)
                           (startOfYear clock i) 0 1) <> []).
      { apply getStarsThisYear_loop_settled. rewrite Hn. discriminate. }
      destruct (fst (getStarsThisYear_loop fuel remote username (Repository.name r)
                       (startOfYear clock i) 0 1)) as [|request log];
        [contradiction|].
      cbn [List.length]. apply first_page_once.
  - intros request Hin.
    destruct (stargazer_requests_eligible _ _ _ _ _ _ Hin) as (r & page & Hr & Hpos & ->).
    exists r, page. repeat split; [exact Hr | lia].
Qed.

(** The account of the example: three repositories listed, two of them
    with stars, two results, two first pages requested. *)
Lemma C7_one_result_per_starred_repo_witness :
  exists collected,
    aggregate 3 (Examples.utc 2025) Examples.remote_abc [1%nat; 0%nat] "ryoppippi"
      [Examples.repoA; Examples.repoB; Examples.repoC] = Returned collected /\
    List.length collected = 2%nat.
Proof.
  destruct (C7_one_result_per_starred_repo 3 (Examples.utc 2025) Examples.remote_abc
              [1%nat; 0%nat] "ryoppippi"
              [Examples.repoA; Examples.repoB; Examples.repoC])
    as (collected & Hagg & Hlen & _).
  - repeat constructor; vm_compute; discriminate.
  - intros [|[|i]] r Hnth.
    + injection Hnth as <-. exists 3. reflexivity.
    + injection Hnth as <-. exists 0. reflexivity.
    + destruct i; discriminate Hnth.
  - exists collected. split; [exact Hagg | exact Hlen].
Defined.

(** ** The Ranker *)

Lemma insert_perm {A : Type} (cmp : A -> A -> Z) (x : A) (l : list A) :
  Permutation (x :: l) (insert cmp x l).
Proof.
  induction l as [|y l IH]; cbn [insert].
  - apply Permutation_refl.
  - destruct (cmp x y <=? 0).
    + apply Permutation_refl.
    + eapply perm_trans; [apply perm_swap|]. apply perm_skip. exact IH.
Qed.

Lemma Array_sort_perm {A : Type} (cmp : A -> A -> Z) (l : list A) :
  Permutation l (Array_sort cmp l).
Proof.
  induction l as [|x l IH]; cbn [Array_sort].
  - apply perm_nil.
  - eapply perm_trans; [apply perm_skip; exact IH | apply insert_perm].
Qed.

Lemma insert_descending (x : RepoStarResult.t) (l : list RepoStarResult.t) :
  StronglySorted descending l -> StronglySorted descending (insert byStarsThisYear x l).
Proof.
  induction 1 as [|y l Hl IH Hy]; cbn [insert].
  - repeat constructor.
  - unfold byStarsThisYear at 1.
    destruct (Z.leb_spec (RepoStarResult.starsThisYear y - RepoStarResult.starsThisYear x) 0)
      as [Hle|Hgt].
    + constructor; [constructor; assumption|].
      constructor; [unfold descending; lia|].
      eapply Forall_impl; [|exact Hy]. unfold descending. intros z Hz. lia.
    + constructor; [exact IH|].
      eapply Permutation_Forall; [apply insert_perm|].
      constructor; [unfold descending; lia | exact Hy].
Qed.

Lemma sortResults_descending (l : list RepoStarResult.t) :
  StronglySorted descending (sortResults l).
Proof.
  unfold sortResults. induction l as [|x l IH]; cbn [Array_sort].
  - constructor.
  - apply insert_descending. exact IH.
Qed.

(** The sort is stable: results with the same count keep their order. *)
Lemma insert_withCount (k : Z) (x : RepoStarResult.t) (l : list RepoStarResult.t) :
  withCount k (insert byStarsThisYear x l) = withCount k (x :: l).
Proof.
  unfold withCount. induction l as [|y l IH]; cbn [insert]; [reflexivity|].
  unfold byStarsThisYear at 1.
  destruct (Z.leb_spec (RepoStarResult.starsThisYear y - RepoStarResult.starsThisYear x) 0)
    as [Hle|Hgt]; [reflexivity|].
  cbn [filter] in *. rewrite IH.
  destruct (Z.eqb_spec (RepoStarResult.starsThisYear y) k);
    destruct (Z.eqb_spec (RepoStarResult.starsThisYear x) k); try reflexivity; lia.
Qed.

Lemma sortResults_stable (k : Z) (l : list RepoStarResult.t) :
  withCount k (sortResults l) = withCount k l.
Proof.
  unfold sortResults. induction l as [|x l IH]; cbn [Array_sort]; [reflexivity|].
  rewrite insert_withCount. unfold withCount in *. cbn [filter]. rewrite IH. reflexivity.
Qed.

Lemma fold_left_sum {A : Type} (f : A -> Z) (l : list A) :
  forall acc, fold_left (fun sum r => sum + f r) l acc = acc + sumZ (map f l).
Proof.
  unfold sumZ. induction l as [|x l IH]; intro acc; cbn [fold_left map fold_right].
  - lia.
  - rewrite IH. lia.
Qed.

Lemma sumZ_perm (l l' : list Z) : Permutation l l' -> sumZ l = sumZ l'.
Proof.
  unfold sumZ. induction 1; cbn [fold_right]; lia.
Qed.

Lemma Math_max_spec (xs : list Z) :
  forall x,
    (forall y, In y (x :: xs) -> y <= Math_max x xs) /\ In (Math_max x xs) (x :: xs).
Proof.
  unfold Math_max. induction xs as [|z xs IH]; intro x; cbn [fold_left].
  - split; [intros y [<-|[]]; lia | left; reflexivity].
  - destruct (IH (Z.max x z)) as [Hub Hin]. split.
    + intros y [E|[E|Hy]].
      * specialize (Hub (Z.max x z) (or_introl eq_refl)). lia.
      * specialize (Hub (Z.max x z) (or_introl eq_refl)). lia.
      * apply Hub. right. exact Hy.
    + destruct Hin as [E|Hin].
      * rewrite <- E. destruct (Z.max_spec x z) as [[_ ->]|[_ ->]];
          [right; left | left]; reflexivity.
      * right. right. exact Hin.
Qed.

Lemma Math_max_isMaxOver (f : RepoStarResult.t -> Z) (r : RepoStarResult.t)
    (rs : list RepoStarResult.t) :
  isMaxOver f (r :: rs) (Math_max (f r) (map f rs)).
Proof.
  destruct (Math_max_spec (map f rs) (f r)) as [Hub Hin]. split.
  - intros r' Hr'. apply Hub. change (f r :: map f rs) with (map f (r :: rs)).
    apply in_map. exact Hr'.
  - change (f r :: map f rs) with (map f (r :: rs)) in Hin.
    apply in_map_iff in Hin. destruct Hin as (r' & E & Hr'). exists r'. split; assumption.
Qed.

Lemma firstn_nil_inv {A : Type} (n : nat) (l : list A) :
  firstn n l = [] -> n = 0%nat \/ l = [].
Proof.
  destruct n; [left; reflexivity|]. destruct l; [right; reflexivity|discriminate].
Qed.

(** C8: the results of the report are the collected ones sorted by
    descending count of the window; both totals are sums over all the
    results, those without new stars included; the rows shown are the
    first 10 of the sorted results with a count above 0, and each column
    width is the greatest length among these rows only.  On the account
    of the example (A: 5 stars, 3 of the window; B: 10 stars, none of the
    window; C: no star) the totals are 3 and 15 and A is the only row. *)
Theorem C8_ranker :
  (forall (year : Z) (collected : list RepoStarResult.t),
      let rep := report year collected in
      StronglySorted descending (results rep) /\
      Permutation collected (results rep) /\
      summaryStarsThisYear rep = sumZ (map RepoStarResult.starsThisYear collected) /\
      summaryStarsAllTime rep = sumZ (map RepoStarResult.totalStars collected) /\
      match shown rep with
      | Some (rows, w) =>
          rows <> [] /\
          rows = firstn 10 (filter (fun r => 0 <? RepoStarResult.starsThisYear r)
                              (results rep)) /\
          isMaxOver (fun r => length_of (RepoStarResult.name r)) rows (maxNameLen w) /\
          isMaxOver (fun r => length_of (String_of (RepoStarResult.starsThisYear r)))
            rows (maxStarsLen w) /\
          isMaxOver (fun r => length_of (String_of (RepoStarResult.totalStars r)))
            rows (maxTotalLen w)
      | None =>
          filter (fun r => 0 <? RepoStarResult.starsThisYear r) (results rep) = []
      end) /\
  (forall order,
      main 3 (Examples.utc 2025) Examples.remote_abc order "ryoppippi"
        = Returned
            {| currentYear := 2025;
               results := [resultOf Examples.repoA 3; resultOf Examples.repoB 0];
               summaryStarsThisYear := 3;
               summaryStarsAllTime := 15;
               shown := Some ([resultOf Examples.repoA 3],
                              {| maxNameLen := 1; maxStarsLen := 1; maxTotalLen := 1 |}) |}).
Proof.
  split.
  - intros year collected rep. subst rep. cbn [report results summaryStarsThisYear
                                              summaryStarsAllTime shown].
    assert (Hperm : Permutation collected (sortResults collected))
      by apply Array_sort_perm.
    split; [apply sortResults_descending|].
    split; [exact Hperm|].
    split; [|split].
    + unfold totalStarsThisYear. rewrite fold_left_sum, Z.add_0_l.
      apply sumZ_perm, Permutation_map, Permutation_sym, Hperm.
    + unfold totalStarsAllTime. rewrite fold_left_sum, Z.add_0_l.
      apply sumZ_perm, Permutation_map, Permutation_sym, Hperm.
    + unfold table, top10, reposWithNewStars.
      destruct (firstn 10 (filter (fun r => 0 <? RepoStarResult.starsThisYear r)
                             (sortResults collected))) as [|r rs] eqn:Hrows.
      * apply firstn_nil_inv in Hrows. destruct Hrows as [H|H]; [discriminate H|exact H].
      * split; [discriminate|]. split; [reflexivity|].
        unfold widths. cbn [maxNameLen maxStarsLen maxTotalLen].
        repeat split; try apply Math_max_isMaxOver;
          apply (Math_max_isMaxOver _ r rs).
  - intro order. unfold main.
    change (snd (getPublicRepos 3 Examples.remote_abc "ryoppippi"))
      with (Returned [Examples.repoA; Examples.repoB; Examples.repoC]).
    cbn [bind]. unfold aggregate.
    replace (map snd (tasks 3 (Examples.utc 2025) Examples.remote_abc "ryoppippi"
                        [Examples.repoA; Examples.repoB; Examples.repoC]))
      with (map Returned [resultOf Examples.repoA 3; resultOf Examples.repoB 0])
      by reflexivity.
    rewrite Promise_all_fulfils. reflexivity.
Qed.

(** ** A settled call does not depend on the bound of the model *)

Lemma getPublicRepos_loop_fuel (remote : Remote) (username : string) :
  forall (fuel : nat) (repos : list Repository.t) (page : Z),
    snd (getPublicRepos_loop fuel remote username repos page) <> Pending ->
    forall fuel', (fuel <= fuel')%nat ->
      getPublicRepos_loop fuel' remote username repos page
        = getPublicRepos_loop fuel remote username repos page.
Proof.
  induction fuel as [|fuel IH]; intros repos page Hsettled fuel' Hle.
  - exfalso. apply Hsettled. reflexivity.
  - destruct fuel' as [|fuel']; [lia|].
    cbn [getPublicRepos_loop] in *.
    repeat match goal with
           | |- context [if ?b then _ else _] => destruct b
           end; try reflexivity.
    rewrite (IH (repos ++ filter (fun repo => negb (Repository.private repo))
                         (json (fetchRepos remote username perPage page)))
                (page + 1)); [reflexivity| |lia].
    destruct (getPublicRepos_loop fuel remote username _ (page + 1)). exact Hsettled.
Qed.

Lemma getStarsThisYear_loop_fuel (remote : Remote) (owner repo s : string) :
  forall (fuel : nat) (n page : Z),
    snd (getStarsThisYear_loop fuel remote owner repo s n page) <> Pending ->
    forall fuel', (fuel <= fuel')%nat ->
      getStarsThisYear_loop fuel' remote owner repo s n page
        = getStarsThisYear_loop fuel remote owner repo s n page.
Proof.
  induction fuel as [|fuel IH]; intros n page Hsettled fuel' Hle.
  - exfalso. apply Hsettled. reflexivity.
  - destruct fuel' as [|fuel']; [lia|].
    cbn [getStarsThisYear_loop] in *.
    repeat match goal with
           | |- context [if ?b then _ else _] => destruct b
           end; try reflexivity.
    rewrite (IH (count_page s (json (fetchStargazers remote owner repo perPage page)) n)
                (page + 1)); [reflexivity| |lia].
    destruct (getStarsThisYear_loop fuel remote owner repo s _ (page + 1)). exact Hsettled.
Qed.

(** Two calls on the same remote data that both settle agree. *)
Lemma getPublicRepos_agree (remote : Remote) (username : string) (fuel1 fuel2 : nat)
    (repos1 repos2 : list Repository.t) :
  snd (getPublicRepos fuel1 remote username) = Returned repos1 ->
  snd (getPublicRepos fuel2 remote username) = Returned repos2 ->
  repos1 = repos2.
Proof.
  unfold getPublicRepos. intros H1 H2.
  assert (E1 : getPublicRepos_loop (Nat.max fuel1 fuel2) remote username [] 1
               = getPublicRepos_loop fuel1 remote username [] 1)
    by (apply getPublicRepos_loop_fuel; [rewrite H1; discriminate | lia]).
  assert (E2 : getPublicRepos_loop (Nat.max fuel1 fuel2) remote username [] 1
               = getPublicRepos_loop fuel2 remote username [] 1)
    by (apply getPublicRepos_loop_fuel; [rewrite H2; discriminate | lia]).
  rewrite <- E1, E2, H2 in H1. injection H1 as ->. reflexivity.
Qed.

Lemma getStarsThisYear_agree (remote : Remote) (clock1 clock2 : Clock)
    (fuel1 fuel2 : nat) (index : nat) (owner repo : string) (n1 n2 : Z) :
  startOfYear clock1 index = startOfYear clock2 index ->
  snd (getStarsThisYear fuel1 clock1 remote index owner repo) = Returned n1 ->
  snd (getStarsThisYear fuel2 clock2 remote index owner repo) = Returned n2 ->
  n1 = n2.
Proof.
  unfold getStarsThisYear. intros Hs H1 H2. rewrite <- Hs in H2.
  assert (E1 : getStarsThisYear_loop (Nat.max fuel1 fuel2) remote owner repo
                 (startOfYear clock1 index) 0 1
               = getStarsThisYear_loop fuel1 remote owner repo (startOfYear clock1 index) 0 1)
    by (apply getStarsThisYear_loop_fuel; [rewrite H1; discriminate | lia]).
  assert (E2 : getStarsThisYear_loop (Nat.max fuel1 fuel2) remote owner repo
                 (startOfYear clock1 index) 0 1
               = getStarsThisYear_loop fuel2 remote owner repo (startOfYear clock1 index) 0 1)
    by (apply getStarsThisYear_loop_fuel; [rewrite H2; discriminate | lia]).
  rewrite <- E1, E2, H2 in H1. injection H1 as ->. reflexivity.
Qed.

Lemma aggregate_agree (remote : Remote) (clock1 clock2 : Clock) (fuel1 fuel2 : nat)
    (order1 order2 : list nat) (username : string) (repos : list Repository.t)
    (collected1 collected2 : list RepoStarResult.t) :
  (forall index, startOfYear clock1 index = startOfYear clock2 index) ->
  aggregate fuel1 clock1 remote order1 username repos = Returned collected1 ->
  aggregate fuel2 clock2 remote order2 username repos = Returned collected2 ->
  collected1 = collected2.
Proof.
  intros Hs H1 H2. apply nth_error_ext. intro i.
  destruct (nth_error (starredRepos repos) i) as [r|] eqn:Hnth.
  - destruct (aggregate_nth _ _ _ _ _ _ _ i r H1 Hnth) as (n1 & Hn1 & ->).
    destruct (aggregate_nth _ _ _ _ _ _ _ i r H2 Hnth) as (n2 & Hn2 & ->).
    rewrite (getStarsThisYear_agree remote clock1 clock2 fuel1 fuel2 i username
               (Repository.name r) n1 n2 (Hs i) Hn1 Hn2).
    reflexivity.
  - apply nth_error_None in Hnth.
    rewrite <- (aggregate_length _ _ _ _ _ _ _ H1) in Hnth.
    pose proof Hnth as Hnth'.
    rewrite (aggregate_length _ _ _ _ _ _ _ H1),
      <- (aggregate_length _ _ _ _ _ _ _ H2) in Hnth'.
    apply nth_error_None in Hnth, Hnth'. rewrite Hnth, Hnth'. reflexivity.
Qed.

Lemma main_Returned (fuel : nat) (clock : Clock) (remote : Remote) (order : list nat)
    (username : string) (rep : Report) :
  main fuel clock remote order username = Returned rep ->
  exists repos collected,
    snd (getPublicRepos fuel remote username) = Returned repos /\
    aggregate fuel clock remote order username repos = Returned collected /\
    rep = report (yearAtStart clock) collected.
Proof.
  unfold main. intro H.
  destruct (snd (getPublicRepos fuel remote username)) as [repos|e|]; cbn [bind] in H;
    try discriminate H.
  destruct (aggregate fuel clock remote order username repos) as [collected|e|] eqn:Hagg;
    cbn [bind] in H; try discriminate H.
  injection H as <-. exists repos, collected. repeat split. exact Hagg.
Qed.

(** A run that returned returns the same with a larger bound, another
    clock that gives every task the same boundary, and another order of
    settlement. *)
Lemma aggregate_transfer (remote : Remote) (clock1 clock2 : Clock) (fuel1 fuel2 : nat)
    (order1 order2 : list nat) (username : string) (repos : list Repository.t)
    (collected : list RepoStarResult.t) :
  (forall index, startOfYear clock1 index = startOfYear clock2 index) ->
  (fuel1 <= fuel2)%nat ->
  aggregate fuel1 clock1 remote order1 username repos = Returned collected ->
  aggregate fuel2 clock2 remote order2 username repos = Returned collected.
Proof.
  intros Hs Hle H1.
  destruct (aggregate_returns fuel2 clock2 remote order2 username repos) as [collected2 H2].
  - intros i r Hnth.
    destruct (aggregate_nth _ _ _ _ _ _ _ i r H1 Hnth) as (n & Hn & _).
    exists n. unfold getStarsThisYear in *. rewrite <- Hs.
    rewrite (getStarsThisYear_loop_fuel remote username (Repository.name r) _ fuel1 0 1);
      [exact Hn | rewrite Hn; discriminate | exact Hle].
  - rewrite H2. f_equal. symmetry.
    exact (aggregate_agree _ _ _ _ _ _ _ _ _ _ _ Hs H1 H2).
Qed.

(** When a run produces a report, any other run against the same remote
    data in which the call for each task compares against the same
    boundary produces the report of the same collected results, whatever
    the order in which the tasks settle in either run; the results are
    collected in the order of the repository list, and the sort keeps the
    results of equal count in that order. *)
Lemma runs_agree_on_equal_boundaries :
  forall (remote : Remote) (username : string) (clock1 clock2 : Clock)
         (fuel1 fuel2 : nat) (order1 order2 : list nat) (rep1 : Report),
    (forall index, startOfYear clock1 index = startOfYear clock2 index) ->
    (fuel1 <= fuel2)%nat ->
    main fuel1 clock1 remote order1 username = Returned rep1 ->
    exists repos collected,
      snd (getPublicRepos fuel1 remote username) = Returned repos /\
      aggregate fuel1 clock1 remote order1 username repos = Returned collected /\
      rep1 = report (yearAtStart clock1) collected /\
      main fuel2 clock2 remote order2 username
        = Returned (report (yearAtStart clock2) collected) /\
      map RepoStarResult.fullName collected
        = map Repository.full_name (starredRepos repos) /\
      StronglySorted descending (sortResults collected) /\
      forall k, withCount k (sortResults collected) = withCount k collected.
Proof.
  intros remote username clock1 clock2 fuel1 fuel2 order1 order2 rep1 Hs Hle H1.
  apply main_Returned in H1. destruct H1 as (repos & collected & Hl1 & Ha1 & ->).
  exists repos, collected.
  split; [exact Hl1|split; [exact Ha1|split; [reflexivity|split; [|split; [|split]]]]].
  - unfold main, getPublicRepos in *.
    rewrite (getPublicRepos_loop_fuel remote username fuel1 [] 1);
      [|rewrite Hl1; discriminate | exact Hle].
    rewrite Hl1. cbn [bind].
    rewrite (aggregate_transfer remote clock1 clock2 fuel1 fuel2 order1 order2
               username repos collected Hs Hle Ha1).
    reflexivity.
  - apply nth_error_ext. intro i. rewrite !nth_error_map.
    destruct (nth_error (starredRepos repos) i) as [r|] eqn:Hnth.
    + destruct (aggregate_nth _ _ _ _ _ _ _ i r Ha1 Hnth) as (n & _ & ->). reflexivity.
    + apply nth_error_None in Hnth.
      rewrite <- (aggregate_length _ _ _ _ _ _ _ Ha1) in Hnth.
      apply nth_error_None in Hnth. rewrite Hnth. reflexivity.
  - apply sortResults_descending.
  - intro k. apply sortResults_stable.
Qed.

(** C9, for two runs within one calendar year: when every reading of the
    clock, in both runs, shows the same year, in the same time zone, and
    the first run produces a report, the second run, against the same
    remote data, produces the same report, hence the same sequence of
    results, whatever the order in which the tasks settle in either run;
    the results are collected in the order of the repository list, and
    the sort keeps the results of equal count in that order. *)
Theorem C9_runs_in_one_year_agree :
  forall (remote : Remote) (username : string) (clock1 clock2 : Clock) (year : Z)
         (fuel1 fuel2 : nat) (order1 order2 : list nat) (rep1 : Report),
    yearAtStart clock1 = year ->
    (forall index, getFullYear clock1 index = year) ->
    yearAtStart clock2 = year ->
    (forall index, getFullYear clock2 index = year) ->
    startOfYearISO clock1 year = startOfYearISO clock2 year ->
    (fuel1 <= fuel2)%nat ->
    main fuel1 clock1 remote order1 username = Returned rep1 ->
    main fuel2 clock2 remote order2 username = Returned rep1 /\
    exists repos collected,
      snd (getPublicRepos fuel1 remote username) = Returned repos /\
      aggregate fuel1 clock1 remote order1 username repos = Returned collected /\
      map RepoStarResult.fullName collected
        = map Repository.full_name (starredRepos repos) /\
      results rep1 = sortResults collected /\
      StronglySorted descending (results rep1) /\
      forall k, withCount k (results rep1) = withCount k collected.
Proof.
  intros remote username clock1 clock2 year fuel1 fuel2 order1 order2 rep1
         Hstart1 Hyear1 Hstart2 Hyear2 Hzone Hle H1.
  assert (Hs : forall index, startOfYear clock1 index = startOfYear clock2 index).
  { intro index. unfold startOfYear. rewrite Hyear1, Hyear2. exact Hzone. }
  destruct (runs_agree_on_equal_boundaries remote username clock1 clock2 fuel1 fuel2
              order1 order2 rep1 Hs Hle H1)
    as (repos & collected & Hl1 & Ha1 & -> & H2 & Hnames & Hsorted & Hstable).
  split.
  - rewrite H2, Hstart1, Hstart2. reflexivity.
  - exists repos, collected. cbn [report results].
    repeat split; assumption.
Qed.

(** Two runs of 2025 on two repositories with one star of the window
    each, the tasks settling in either order: the same report, A before
    B. *)
Lemma C9_runs_in_one_year_agree_witness :
  main 7 (Examples.utc 2025) Examples.remote_twins [1%nat; 0%nat] "ryoppippi"
    = Returned (report 2025 [resultOf Examples.repoA 1; resultOf Examples.repoB 1]).
Proof.
  refine (proj1 (C9_runs_in_one_year_agree Examples.remote_twins "ryoppippi"
                   (Examples.utc 2025) (Examples.utc 2025) 2025 3 7
                   [0%nat; 1%nat] [1%nat; 0%nat]
                   (report 2025 [resultOf Examples.repoA 1; resultOf Examples.repoB 1])
                   _ _ _ _ _ _ _)).
  - reflexivity.
  - intro index. reflexivity.
  - reflexivity.
  - intro index. reflexivity.
  - reflexivity.
  - lia.
  - reflexivity.
Defined.

(** C9, as the specification has it, fails: against the same remote
    data, six repositories with one event of June 2025 each, a run of
    2025 gives every repository the count 1, a run of 2026 gives every
    repository the count 0, and a run started in 2025 that passes
    midnight of December 31 gives the sixth repository the count 0. *)
Lemma C9_same_data_different_results :
  main 3 (Examples.utc 2025) Examples.remote_six [] "ryoppippi"
    = Returned (report 2025 (Examples.six_results 1 1)) /\
  main 3 (Examples.utc 2026) Examples.remote_six [] "ryoppippi"
    = Returned (report 2026 (Examples.six_results 0 0)) /\
  main 3 Examples.straddling Examples.remote_six [] "ryoppippi"
    = Returned (report 2025 (Examples.six_results 1 0)) /\
  results (report 2025 (Examples.six_results 1 1))
    <> results (report 2026 (Examples.six_results 0 0)) /\
  results (report 2025 (Examples.six_results 1 1))
    <> results (report 2025 (Examples.six_results 1 0)).
Proof.
  split; [reflexivity|split; [reflexivity|split; [reflexivity|split]]];
    intro H; apply (f_equal (map RepoStarResult.starsThisYear)) in H;
    vm_compute in H; discriminate H.
Qed.

(** ** The boundary of the window *)

(** What a settled call returns: 0 when one of its pages answered 404,
    and otherwise [n] plus the events of its pages that are not before
    the boundary [s] it was given. *)
Lemma getStarsThisYear_loop_count (remote : Remote) (owner repo s : string) :
  forall (fuel : nat) (n page m : Z),
    snd (getStarsThisYear_loop fuel remote owner repo s n page) = Returned m ->
    let pages :=
      pagesFrom page
        (List.length (fst (getStarsThisYear_loop fuel remote owner repo s n page))) in
    (exists q, In q pages /\ status (fetchStargazers remote owner repo perPage q) = 404)
      /\ m = 0
    \/ m = n + sumZ (map (fun q => count_in_window s
                                     (json (fetchStargazers remote owner repo perPage q)))
                        pages).
Proof.
  induction fuel as [|fuel IH]; intros n page m H; [discriminate H|].
  cbn [getStarsThisYear_loop] in *.
  destruct (ok (fetchStargazers remote owner repo perPage page)) eqn:Hok; cbn [negb] in *.
  - destruct (Z.eqb_spec (Z.of_nat (List.length
                (json (fetchStargazers remote owner repo perPage page)))) 0) as [Hempty|_].
    + cbn [fst snd List.length pagesFrom map] in *. injection H as <-. right.
      destruct (json (fetchStargazers remote owner repo perPage page));
        [|simpl List.length in Hempty; lia].
      unfold sumZ, count_in_window. simpl. lia.
    + assert (Hstop : forall m',
                 m' = count_page s (json (fetchStargazers remote owner repo perPage page)) n ->
                 m' = n + sumZ (map (fun q => count_in_window s
                                        (json (fetchStargazers remote owner repo perPage q)))
                                  (pagesFrom page 1))).
      { intros m' ->. rewrite count_page_filter. unfold sumZ. simpl. lia. }
      destruct (oldest_before s (json (fetchStargazers remote owner repo perPage page))).
      { cbn [fst snd List.length] in *. injection H as <-. right. apply Hstop. reflexivity. }
      destruct (Z.of_nat (List.length (json (fetchStargazers remote owner repo perPage page)))
                <? perPage).
      { cbn [fst snd List.length] in *. injection H as <-. right. apply Hstop. reflexivity. }
      specialize (IH (count_page s (json (fetchStargazers remote owner repo perPage page)) n)
                     (page + 1) m).
      destruct (getStarsThisYear_loop fuel remote owner repo s _ (page + 1)) as [log out].
      cbn [fst snd List.length pagesFrom map] in *.
      destruct (IH H) as [[(q & Hq & H404) E]|E]; subst m.
      * left. split; [|reflexivity]. exists q. split; [right; exact Hq | exact H404].
      * right. rewrite count_page_filter. unfold sumZ. cbn [fold_right]. lia.
  - destruct (Z.eqb_spec (status (fetchStargazers remote owner repo perPage page)) 404)
      as [H404|_]; [|discriminate H].
    cbn [fst snd List.length pagesFrom] in *. injection H as <-.
    left. split; [|reflexivity]. exists page. split; [left; reflexivity | exact H404].
Qed.

(** In the run that passes midnight no single boundary accounts for the
    calls of the tasks. *)
Lemma sharedBoundary_fails_across_year_change :
  ~ sharedBoundary 3 Examples.straddling Examples.remote_six "ryoppippi" Examples.six.
Proof.
  intros [boundary H].
  pose proof (H 0%nat (Examples.repoNamed "a") eq_refl) as H0.
  pose proof (H 5%nat (Examples.repoNamed "f") eq_refl) as H5.
  assert (Hloop : forall repo,
             snd (getStarsThisYear_loop 3 Examples.remote_six "ryoppippi" repo boundary 0 1)
             = Returned (0 + count_in_window boundary
                               [Examples.star "2025-06-01T12:00:00Z"])).
  { intro repo.
    rewrite (getStarsThisYear_loop_step 2 Examples.remote_six "ryoppippi" repo boundary
               0 1 [] (Examples.star "2025-06-01T12:00:00Z") eq_refl eq_refl).
    destruct (str_lt _ boundary); reflexivity. }
  apply (f_equal snd) in H0, H5. rewrite Hloop in H0, H5.
  change (snd (getStarsThisYear 3 Examples.straddling Examples.remote_six 0 "ryoppippi"
                 (Repository.name (Examples.repoNamed "a")))) with (@Returned Z 1) in H0.
  change (snd (getStarsThisYear 3 Examples.straddling Examples.remote_six 5 "ryoppippi"
                 (Repository.name (Examples.repoNamed "f")))) with (@Returned Z 0) in H5.
  injection H0 as H0. injection H5 as H5. lia.
Qed.

(** C3, which the code does not keep: [getStarsThisYear] reads the clock
    anew on every call (lines 71-72), while the year of the report is
    read once (line 121).  A UTC process started on the last evening of
    2025, on an account of six repositories with one event of June 2025
    each: the five calls started at once compare against the start of
    2025, the sixth, started after midnight, against the start of 2026;
    the report is the one of 2025 and its total of the year is 5, where
    the boundary of the start of the run, used for every call, gives 6;
    no single boundary accounts for the six calls. *)
Theorem C3_year_change_skews_the_run :
  yearAtStart Examples.straddling = 2025 /\
  startOfYear Examples.straddling 0 = "2025-01-01T00:00:00.000Z"%string /\
  startOfYear Examples.straddling 5 = "2026-01-01T00:00:00.000Z"%string /\
  snd (getStarsThisYear 3 Examples.straddling Examples.remote_six 0 "ryoppippi" "a")
    = Returned 1 /\
  snd (getStarsThisYear 3 Examples.straddling Examples.remote_six 5 "ryoppippi" "f")
    = Returned 0 /\
  main 3 Examples.straddling Examples.remote_six [] "ryoppippi"
    = Returned (report 2025 (Examples.six_results 1 0)) /\
  summaryStarsThisYear (report 2025 (Examples.six_results 1 0)) = 5 /\
  main 3 (Examples.utc 2025) Examples.remote_six [] "ryoppippi"
    = Returned (report 2025 (Examples.six_results 1 1)) /\
  summaryStarsThisYear (report 2025 (Examples.six_results 1 1)) = 6 /\
  ~ sharedBoundary 3 Examples.straddling Examples.remote_six "ryoppippi" Examples.six.
Proof.
  repeat (split; [reflexivity|]).
  exact sharedBoundary_fails_across_year_change.
Qed.

(** ** The model at work *)

(** The timestamps of the API carry no milliseconds, the boundary does:
    an event of the very second of the boundary compares as not before
    it, an event of the second before as before it. *)
Example in_window_at_boundary_second :
  in_window Examples.boundary2025 (Examples.star "2025-01-01T00:00:00Z") = true /\
  in_window Examples.boundary2025 (Examples.star "2024-12-31T23:59:59Z") = false.
Proof. split; reflexivity. Qed.

(** A full page at the boundary, then a page whose last event is before
    it: both pages are requested, the event of 2025 on page 2 counts, and
    page 3 is never requested. *)
Example getStarsThisYear_two_pages :
  getStarsThisYear 5 (Examples.utc 2025) Examples.remote_boundary 0 "ryoppippi" "repo"
    = ([ListStargazers "ryoppippi" "repo" 100 1; ListStargazers "ryoppippi" "repo" 100 2],
       Returned 101).
Proof. reflexivity. Qed.

(** Too small a bound leaves the call pending, it does not invent a
    result. *)
Example getStarsThisYear_pending :
  snd (getStarsThisYear 1 (Examples.utc 2025) Examples.remote_boundary 0 "ryoppippi" "repo")
    = Pending.
Proof. reflexivity. Qed.

(** Equal counts keep the order of the list. *)
Example sortResults_ties :
  sortResults [resultOf Examples.repoB 0; resultOf Examples.repoA 3;
               resultOf Examples.repoC 3; resultOf Examples.repoB 7]
    = [resultOf Examples.repoB 7; resultOf Examples.repoA 3;
       resultOf Examples.repoC 3; resultOf Examples.repoB 0].
Proof. reflexivity. Qed.

(** * Further properties of index.ts *)

(** ** What the Repository Lister returns *)

Lemma getPublicRepos_loop_result (remote : Remote) (username : string) :
  forall (fuel : nat) (repos : list Repository.t) (page : Z) (res : list Repository.t),
    snd (getPublicRepos_loop fuel remote username repos page) = Returned res ->
    res = repos
          ++ flat_map (public remote username)
               (pagesFrom page
                  (List.length (fst (getPublicRepos_loop fuel remote username repos page)))).
Proof.
  induction fuel as [|fuel IH]; intros repos page res H; [discriminate H|].
  cbn [getPublicRepos_loop] in *.
  destruct (ok (fetchRepos remote username perPage page)); cbn [negb] in *;
    [|discriminate H].
  destruct (Z.eqb_spec (Z.of_nat (List.length (json (fetchRepos remote username perPage page))))
              0) as [Hempty|_].
  - cbn [fst snd List.length pagesFrom flat_map] in *. injection H as <-.
    unfold public.
    destruct (json (fetchRepos remote username perPage page));
      [|simpl List.length in Hempty; lia].
    cbn [filter app]. rewrite app_nil_r. reflexivity.
  - destruct (Z.of_nat (List.length (json (fetchRepos remote username perPage page)))
              <? perPage).
    + cbn [fst snd List.length pagesFrom flat_map] in *. injection H as <-.
      rewrite app_nil_r. reflexivity.
    + specialize (IH (repos ++ filter (fun repo => negb (Repository.private repo))
                               (json (fetchRepos remote username perPage page)))
                     (page + 1) res).
      destruct (getPublicRepos_loop fuel remote username _ (page + 1)) as [log out].
      cbn [fst snd List.length pagesFrom flat_map] in *.
      rewrite (IH H), <- app_assoc. reflexivity.
Qed.

(** X1: the list [getPublicRepos] returns is made of the repositories of
    the pages it requested that are not flagged private, page after page
    and in the order of each page: it holds no private repository, and
    none that was not served on a requested page. *)
Theorem X1_lister_returns_public_repositories :
  forall (fuel : nat) (remote : Remote) (username : string) (repos : list Repository.t),
    snd (getPublicRepos fuel remote username) = Returned repos ->
    repos = flat_map (public remote username)
              (pagesFrom 1 (List.length (fst (getPublicRepos fuel remote username)))) /\
    Forall (fun r => Repository.private r = false) repos /\
    (forall r,
        In r repos ->
        exists page,
          In (ListRepos username perPage page) (fst (getPublicRepos fuel remote username)) /\
          In r (json (fetchRepos remote username perPage page))).
Proof.
  intros fuel remote username repos H.
  assert (Hres : repos = flat_map (public remote username)
                           (pagesFrom 1 (List.length
                                           (fst (getPublicRepos fuel remote username)))))
    by (exact (getPublicRepos_loop_result remote username fuel [] 1 repos H)).
  split; [exact Hres|].
  assert (Hin : forall r, In r repos ->
                  exists page,
                    In page (pagesFrom 1 (List.length
                                            (fst (getPublicRepos fuel remote username)))) /\
                    In r (json (fetchRepos remote username perPage page)) /\
                    Repository.private r = false).
  { intros r Hr. rewrite Hres in Hr. apply in_flat_map in Hr.
    destruct Hr as (page & Hpage & Hr). unfold public in Hr. apply filter_In in Hr.
    destruct Hr as [Hr Hpub]. exists page. repeat split; [exact Hpage | exact Hr |].
    destruct (Repository.private r); [discriminate Hpub | reflexivity]. }
  split.
  - apply Forall_forall. intros r Hr. destruct (Hin r Hr) as (_ & _ & _ & Hpub). exact Hpub.
  - intros r Hr. destruct (Hin r Hr) as (page & Hpage & Hjson & _).
    exists page. split; [|exact Hjson].
    unfold getPublicRepos in *. rewrite getPublicRepos_loop_pages.
    apply in_map. exact Hpage.
Qed.

(** An account with a private repository: it is not in the list. *)
Lemma X1_lister_returns_public_repositories_witness :
  Forall (fun r => Repository.private r = false) [Examples.repoA; Examples.repoB].
Proof.
  refine (proj1 (proj2 (X1_lister_returns_public_repositories 3
                          Examples.remote_with_private "ryoppippi"
                          [Examples.repoA; Examples.repoB] _))).
  reflexivity.
Defined.

(** ** The requests of the Window Counter *)

Lemma getStarsThisYear_loop_head (remote : Remote) (owner repo s : string)
    (fuel : nat) (n page : Z) :
  In (ListStargazers owner repo perPage page)
     (fst (getStarsThisYear_loop (S fuel) remote owner repo s n page)).
Proof.
  cbn [getStarsThisYear_loop].
  repeat match goal with
         | |- context [if ?b then _ else _] => destruct b
         | |- context [let (_, _) := ?p in _] => destruct p
         end; left; reflexivity.
Qed.

Lemma getStarsThisYear_loop_local (remote1 remote2 : Remote) (owner repo s : string) :
  forall (fuel : nat) (n page : Z),
    (forall q,
        In (ListStargazers owner repo perPage q)
           (fst (getStarsThisYear_loop fuel remote1 owner repo s n page)) ->
        fetchStargazers remote2 owner repo perPage q
          = fetchStargazers remote1 owner repo perPage q) ->
    getStarsThisYear_loop fuel remote2 owner repo s n page
      = getStarsThisYear_loop fuel remote1 owner repo s n page.
Proof.
  induction fuel as [|fuel IH]; intros n page Hsame; [reflexivity|].
  pose proof (Hsame page (getStarsThisYear_loop_head remote1 owner repo s fuel n page)) as E.
  cbn [getStarsThisYear_loop] in *. rewrite E.
  repeat match goal with
         | |- context [if ?b then _ else _] => destruct b
         end; try reflexivity.
  rewrite IH; [reflexivity|].
  intros q Hq. apply Hsame.
  destruct (getStarsThisYear_loop fuel remote1 owner repo s _ (page + 1)).
  right. exact Hq.
Qed.

(** X3: the outcome of a call of the Window Counter depends on the
    remote only through the pages the call requested: a remote that
    answers these pages alike, whatever it holds on later pages, gives
    the same requests and the same outcome.  What lies after the page on
    which the loop stopped is never looked at. *)
Theorem X3_counter_reads_requested_pages_only :
  forall (fuel : nat) (clock : Clock) (remote1 remote2 : Remote) (index : nat)
         (owner repo : string),
    (forall page,
        In (ListStargazers owner repo perPage page)
           (fst (getStarsThisYear fuel clock remote1 index owner repo)) ->
        fetchStargazers remote2 owner repo perPage page
          = fetchStargazers remote1 owner repo perPage page) ->
    getStarsThisYear fuel clock remote2 index owner repo
      = getStarsThisYear fuel clock remote1 index owner repo.
Proof.
  intros fuel clock remote1 remote2 index owner repo Hsame.
  unfold getStarsThisYear in *. apply getStarsThisYear_loop_local. exact Hsame.
Qed.

(** The loop stops on page 2: errors on the later pages change nothing. *)
Lemma X3_counter_reads_requested_pages_only_witness :
  getStarsThisYear 5 (Examples.utc 2025) Examples.remote_boundary_then_errors 0
    "ryoppippi" "repo"
  = getStarsThisYear 5 (Examples.utc 2025) Examples.remote_boundary 0 "ryoppippi" "repo".
Proof.
  refine (X3_counter_reads_requested_pages_only 5 (Examples.utc 2025)
            Examples.remote_boundary Examples.remote_boundary_then_errors 0
            "ryoppippi" "repo" _).
  intros page [E|[E|[]]]; injection E as <-; reflexivity.
Defined.

Lemma getStarsThisYear_loop_goes_on (fuel : nat) (remote : Remote) (owner repo s : string)
    (n page : Z) :
  goes_on remote owner repo s page ->
  getStarsThisYear_loop (S fuel) remote owner repo s n page
    = (ListStargazers owner repo perPage page
         :: fst (getStarsThisYear_loop fuel remote owner repo s
                   (n + count_in_window s (eventsOf remote owner repo page)) (page + 1)),
       snd (getStarsThisYear_loop fuel remote owner repo s
              (n + count_in_window s (eventsOf remote owner repo page)) (page + 1))).
Proof.
  intros [[Hok Hfull] Hold]. unfold eventsOf in *.
  cbn [getStarsThisYear_loop]. rewrite Hok, Hold. cbn [negb].
  unfold perPage in *.
  destruct (Z.eqb_spec (Z.of_nat (List.length (json (fetchStargazers remote owner repo 100
                                                        page)))) 0); [lia|].
  destruct (Z.ltb_spec (Z.of_nat (List.length (json (fetchStargazers remote owner repo 100
                                                        page)))) 100); [lia|].
  rewrite count_page_filter.
  destruct (getStarsThisYear_loop fuel remote owner repo s _ (page + 1)); reflexivity.
Qed.

Lemma getStarsThisYear_loop_stops (fuel : nat) (remote : Remote) (owner repo s : string)
    (n page : Z) :
  ~ goes_on remote owner repo s page ->
  fst (getStarsThisYear_loop (S fuel) remote owner repo s n page)
    = [ListStargazers owner repo perPage page] /\
  snd (getStarsThisYear_loop (S fuel) remote owner repo s n page) <> Pending.
Proof.
  intro Hstop. unfold goes_on, full_stargazer_page, eventsOf in Hstop.
  cbn [getStarsThisYear_loop].
  destruct (ok (fetchStargazers remote owner repo perPage page)) eqn:Hok; cbn [negb].
  - destruct (Z.of_nat (List.length (json (fetchStargazers remote owner repo perPage page)))
              =? 0); [split; [reflexivity|discriminate]|].
    destruct (oldest_before s (json (fetchStargazers remote owner repo perPage page)))
      eqn:Hold; [split; [reflexivity|discriminate]|].
    destruct (Z.ltb_spec
                (Z.of_nat (List.length (json (fetchStargazers remote owner repo perPage page))))
                perPage) as [Hshort|Hfull]; [split; [reflexivity|discriminate]|].
    exfalso. apply Hstop. repeat split; assumption.
  - destruct (status (fetchStargazers remote owner repo perPage page) =? 404);
      split; try reflexivity; discriminate.
Qed.

Lemma getStarsThisYear_loop_prefix (remote : Remote) (owner repo s : string) :
  forall (k fuel : nat) (n page : Z),
    Forall (goes_on remote owner repo s) (pagesFrom page k) ->
    getStarsThisYear_loop (k + fuel) remote owner repo s n page
      = (map (ListStargazers owner repo perPage) (pagesFrom page k)
           ++ fst (getStarsThisYear_loop fuel remote owner repo s
                     (n + sumZ (map (fun q => count_in_window s (eventsOf remote owner repo q))
                                  (pagesFrom page k)))
                     (page + Z.of_nat k)),
         snd (getStarsThisYear_loop fuel remote owner repo s
                (n + sumZ (map (fun q => count_in_window s (eventsOf remote owner repo q))
                             (pagesFrom page k)))
                (page + Z.of_nat k))).
Proof.
  induction k as [|k IH]; intros fuel n page Hgo.
  - cbn [pagesFrom map sumZ fold_right Nat.add app]. rewrite !Z.add_0_r.
    destruct (getStarsThisYear_loop fuel remote owner repo s n page); reflexivity.
  - cbn [pagesFrom] in Hgo. inversion Hgo as [|p ps Hp Hps]; subst.
    cbn [Nat.add]. rewrite (getStarsThisYear_loop_goes_on _ _ _ _ _ _ _ Hp).
    rewrite (IH fuel _ (page + 1) Hps).
    cbn [pagesFrom map fst snd app]. unfold sumZ. cbn [fold_right]. fold sumZ.
    replace (page + 1 + Z.of_nat k) with (page + Z.of_nat (S k)) by lia.
    rewrite <- !Z.add_assoc. reflexivity.
Qed.

(** X4: when the pages 1 to [k] of a stargazer list are full with a last
    event not before the boundary, and page [k + 1] is anything else (not
    served, empty, short, or ending before the boundary), the call
    requests exactly the pages 1 to [k + 1] and settles: [k + 1]
    iterations are enough. *)
Theorem X4_counter_settles_at_first_stopping_page :
  forall (remote : Remote) (owner repo s : string) (k fuel : nat),
    Forall (goes_on remote owner repo s) (pagesFrom 1 k) ->
    ~ goes_on remote owner repo s (1 + Z.of_nat k) ->
    (k < fuel)%nat ->
    fst (getStarsThisYear_loop fuel remote owner repo s 0 1)
      = map (ListStargazers owner repo perPage) (pagesFrom 1 (S k)) /\
    snd (getStarsThisYear_loop fuel remote owner repo s 0 1) <> Pending.
Proof.
  intros remote owner repo s k fuel Hgo Hstop Hfuel.
  replace fuel with (k + S (fuel - S k))%nat by lia.
  rewrite (getStarsThisYear_loop_prefix remote owner repo s k _ 0 1 Hgo).
  cbn [fst snd].
  destruct (getStarsThisYear_loop_stops (fuel - S k) remote owner repo s
              (0 + sumZ (map (fun q => count_in_window s (eventsOf remote owner repo q))
                           (pagesFrom 1 k)))
              (1 + Z.of_nat k) Hstop) as [Hlog Hout].
  split; [|exact Hout].
  rewrite Hlog, pagesFrom_snoc, map_app. reflexivity.
Qed.

(** A full page at the boundary, then a page that ends before it. *)
Lemma X4_counter_settles_at_first_stopping_page_witness :
  fst (getStarsThisYear_loop 2 Examples.remote_boundary "ryoppippi" "repo"
         Examples.boundary2025 0 1)
    = map (ListStargazers "ryoppippi" "repo" perPage) (pagesFrom 1 2).
Proof.
  refine (proj1 (X4_counter_settles_at_first_stopping_page Examples.remote_boundary
                   "ryoppippi" "repo" Examples.boundary2025 1 2 _ _ _)).
  - constructor; [|constructor].
    split; [split; [reflexivity | vm_compute; discriminate] | reflexivity].
  - intros [_ Hold]. vm_compute in Hold. discriminate Hold.
  - lia.
Defined.

(** X5: the loop of the Window Counter has no bound of its own: against
    a remote that serves, for every page number, a full page whose last
    event is not before the boundary, the call requests page after page
    and never settles. *)
Theorem X5_counter_never_settles_on_endless_pages :
  forall (remote : Remote) (owner repo s : string),
    (forall page, 1 <= page -> goes_on remote owner repo s page) ->
    forall fuel,
      getStarsThisYear_loop fuel remote owner repo s 0 1
        = (map (ListStargazers owner repo perPage) (pagesFrom 1 fuel), Pending).
Proof.
  intros remote owner repo s Hgo fuel.
  assert (Hall : forall k page, 1 <= page ->
                   Forall (goes_on remote owner repo s) (pagesFrom page k)).
  { induction k as [|k IH]; intros page Hpage; cbn [pagesFrom]; constructor.
    - apply Hgo. exact Hpage.
    - apply IH. lia. }
  replace fuel with (fuel + 0)%nat at 1 by lia.
  rewrite (getStarsThisYear_loop_prefix remote owner repo s fuel 0 0 1 (Hall fuel 1 ltac:(lia))).
  cbn [getStarsThisYear_loop fst snd]. rewrite app_nil_r. reflexivity.
Qed.

(** A remote that answers every page with the same full page. *)
Lemma X5_counter_never_settles_on_endless_pages_witness :
  snd (getStarsThisYear_loop 50 Examples.remote_endless "ryoppippi" "repo"
         Examples.boundary2025 0 1) = Pending.
Proof.
  rewrite (X5_counter_never_settles_on_endless_pages Examples.remote_endless
             "ryoppippi" "repo" Examples.boundary2025).
  - reflexivity.
  - intros page _.
    split; [split; [reflexivity | vm_compute; discriminate] | reflexivity].
Defined.

(** ** The count of the Window Counter *)

Lemma count_in_window_app (s : string) (l1 l2 : list StargazerEvent.t) :
  count_in_window s (l1 ++ l2) = count_in_window s l1 + count_in_window s l2.
Proof.
  unfold count_in_window. rewrite filter_app, length_app. lia.
Qed.

Lemma count_in_window_bounds (s : string) (l : list StargazerEvent.t) :
  0 <= count_in_window s l <= Z.of_nat (List.length l).
Proof.
  unfold count_in_window. pose proof (filter_length_le (in_window s) l). lia.
Qed.

Lemma count_in_window_all (s : string) (l : list StargazerEvent.t) :
  Forall (fun e => in_window s e = true) l ->
  count_in_window s l = Z.of_nat (List.length l).
Proof.
  unfold count_in_window. induction 1 as [|e l He _ IH]; [reflexivity|].
  cbn [filter]. rewrite He. cbn [List.length]. lia.
Qed.

Lemma count_in_window_none (s : string) (l : list StargazerEvent.t) :
  Forall (fun e => in_window s e = false) l -> count_in_window s l = 0.
Proof.
  unfold count_in_window. induction 1 as [|e l He _ IH]; [reflexivity|].
  cbn [filter]. rewrite He. exact IH.
Qed.

Lemma sum_count_in_window (remote : Remote) (owner repo s : string) (pages : list Z) :
  sumZ (map (fun q => count_in_window s (eventsOf remote owner repo q)) pages)
    = count_in_window s (flat_map (eventsOf remote owner repo) pages).
Proof.
  unfold sumZ. induction pages as [|q pages IH]; [reflexivity|].
  cbn [map fold_right flat_map]. rewrite count_in_window_app, IH. reflexivity.
Qed.

Lemma getStarsThisYear_loop_short (fuel : nat) (remote : Remote) (owner repo s : string)
    (n page : Z) :
  ok (fetchStargazers remote owner repo perPage page) = true ->
  Z.of_nat (List.length (eventsOf remote owner repo page)) < perPage ->
  getStarsThisYear_loop (S fuel) remote owner repo s n page
    = ([ListStargazers owner repo perPage page],
       Returned (n + count_in_window s (eventsOf remote owner repo page))).
Proof.
  unfold eventsOf. intros Hok Hshort. cbn [getStarsThisYear_loop]. rewrite Hok. cbn [negb].
  destruct (json (fetchStargazers remote owner repo perPage page)) as [|e data] eqn:Hdata.
  - simpl. rewrite Z.add_0_r. reflexivity.
  - destruct (Z.eqb_spec (Z.of_nat (List.length (e :: data))) 0);
      [simpl List.length in *; lia|].
    rewrite count_page_filter.
    destruct (oldest_before s (e :: data)); [reflexivity|].
    destruct (Z.ltb_spec (Z.of_nat (List.length (e :: data))) perPage); [reflexivity|lia].
Qed.

Lemma oldest_before_in_window (s : string) (data : list StargazerEvent.t) :
  Forall (fun e => in_window s e = true) data -> oldest_before s data = false.
Proof.
  intro Hall. unfold oldest_before.
  destruct (nth_error data (List.length data - 1)) as [oldest|] eqn:Hnth; [|reflexivity].
  apply nth_error_In in Hnth. rewrite Forall_forall in Hall.
  specialize (Hall oldest Hnth). unfold in_window, str_ge in Hall.
  destruct (str_lt (StargazerEvent.starred_at oldest) s); [discriminate Hall|reflexivity].
Qed.

Lemma Forall_flat_map_pages {A : Type} (P : A -> Prop) (f : Z -> list A) (k : nat) :
  forall page,
    Forall P (flat_map f (pagesFrom page k)) ->
    Forall (fun q => Forall P (f q)) (pagesFrom page k).
Proof.
  induction k as [|k IH]; intros page H; cbn [pagesFrom flat_map] in *; constructor.
  - apply Forall_app in H. exact (proj1 H).
  - apply IH. apply Forall_app in H. exact (proj2 H).
Qed.

(** X6: when every event of a stargazer list is in the window, the list
    being [k] full pages followed by a served page of fewer than 100
    events, the call requests every page, 1 to [k + 1], and returns the
    number of events of the list: nothing stops it early and nothing is
    left out. *)
Theorem X6_counter_scans_a_list_all_in_window :
  forall (remote : Remote) (owner repo s : string) (k fuel : nat),
    Forall (full_stargazer_page remote owner repo) (pagesFrom 1 k) ->
    ok (fetchStargazers remote owner repo perPage (1 + Z.of_nat k)) = true ->
    Z.of_nat (List.length (eventsOf remote owner repo (1 + Z.of_nat k))) < perPage ->
    Forall (fun e => in_window s e = true)
      (flat_map (eventsOf remote owner repo) (pagesFrom 1 (S k))) ->
    (k < fuel)%nat ->
    getStarsThisYear_loop fuel remote owner repo s 0 1
      = (map (ListStargazers owner repo perPage) (pagesFrom 1 (S k)),
         Returned (Z.of_nat (List.length
                               (flat_map (eventsOf remote owner repo) (pagesFrom 1 (S k)))))).
Proof.
  intros remote owner repo s k fuel Hfull Hok Hshort Hall Hfuel.
  assert (Hgo : Forall (goes_on remote owner repo s) (pagesFrom 1 k)).
  { apply Forall_flat_map_pages in Hall. rewrite pagesFrom_snoc in Hall.
    apply Forall_app in Hall. destruct Hall as [Hall _].
    rewrite Forall_forall in *. intros q Hq. split; [exact (Hfull q Hq)|].
    apply oldest_before_in_window. exact (Hall q Hq). }
  replace fuel with (k + S (fuel - S k))%nat by lia.
  rewrite (getStarsThisYear_loop_prefix remote owner repo s k _ 0 1 Hgo).
  rewrite (getStarsThisYear_loop_short _ _ _ _ _ _ _ Hok Hshort).
  cbn [fst snd]. f_equal.
  - rewrite pagesFrom_snoc, map_app. reflexivity.
  - f_equal. rewrite <- (count_in_window_all s _ Hall).
    rewrite pagesFrom_snoc, flat_map_app, count_in_window_app, sum_count_in_window.
    cbn [flat_map]. rewrite app_nil_r. lia.
Qed.

(** A list of 102 events of 2025: both pages are read, 102 is returned. *)
Lemma X6_counter_scans_a_list_all_in_window_witness :
  getStarsThisYear_loop 3 Examples.remote_all_recent "ryoppippi" "repo"
    Examples.boundary2025 0 1
  = (map (ListStargazers "ryoppippi" "repo" perPage) (pagesFrom 1 2), Returned 102).
Proof.
  refine (X6_counter_scans_a_list_all_in_window Examples.remote_all_recent
            "ryoppippi" "repo" Examples.boundary2025 1 3 _ _ _ _ _).
  - constructor; [|constructor]. split; [reflexivity | vm_compute; discriminate].
  - reflexivity.
  - reflexivity.
  - apply Forall_forall.
    apply (proj1 (forallb_forall (in_window Examples.boundary2025)
                    (flat_map (eventsOf Examples.remote_all_recent "ryoppippi" "repo")
                       (pagesFrom 1 2)))).
    vm_compute. reflexivity.
  - lia.
Defined.

Lemma getStarsThisYear_count_bounds (fuel : nat) (clock : Clock) (remote : Remote)
    (index : nat) (owner repo : string) (m : Z) :
  snd (getStarsThisYear fuel clock remote index owner repo) = Returned m ->
  0 <= m
    <= Z.of_nat
         (List.length
            (flat_map (eventsOf remote owner repo)
               (pagesFrom 1
                  (List.length
                     (fst (getStarsThisYear fuel clock remote index owner repo)))))).
Proof.
  intro H. unfold getStarsThisYear in *.
  destruct (getStarsThisYear_loop_count remote owner repo _ fuel 0 1 m H) as [[_ E]|E];
    subst m.
  - pose proof (Nat2Z.is_nonneg
                  (List.length
                     (flat_map (eventsOf remote owner repo)
                        (pagesFrom 1
                           (List.length
                              (fst (getStarsThisYear_loop fuel remote owner repo
                                      (startOfYear clock index) 0 1))))))).
    lia.
  - change (fun q => count_in_window (startOfYear clock index)
                       (json (fetchStargazers remote owner repo perPage q)))
      with (fun q => count_in_window (startOfYear clock index)
                       (eventsOf remote owner repo q)).
    rewrite sum_count_in_window, Z.add_0_l. apply count_in_window_bounds.
Qed.

(** X7: a count the Window Counter returns is never negative and never
    more than the number of events on the pages it requested. *)
Theorem X7_count_within_the_events_served :
  forall (fuel : nat) (clock : Clock) (remote : Remote) (index : nat)
         (owner repo : string) (m : Z),
    snd (getStarsThisYear fuel clock remote index owner repo) = Returned m ->
    0 <= m
      <= Z.of_nat
           (List.length
              (flat_map (eventsOf remote owner repo)
                 (pagesFrom 1
                    (List.length
                       (fst (getStarsThisYear fuel clock remote index owner repo)))))).
Proof.
  intros fuel clock remote index owner repo m.
  apply getStarsThisYear_count_bounds.
Qed.

(** The repository A of the example: 3 of the 5 events served. *)
Lemma X7_count_within_the_events_served_witness :
  0 <= 3
    <= Z.of_nat
         (List.length
            (flat_map (eventsOf Examples.remote_abc "ryoppippi" "A")
               (pagesFrom 1
                  (List.length
                     (fst (getStarsThisYear 3 (Examples.utc 2025) Examples.remote_abc 0
                             "ryoppippi" "A")))))).
Proof.
  refine (X7_count_within_the_events_served 3 (Examples.utc 2025) Examples.remote_abc 0
            "ryoppippi" "A" 3 _).
  reflexivity.
Defined.

(** ** The early stop on a list that gives the newest event first *)

Lemma ascii_compare_lt_trans (a b c : ascii) :
  Ascii.compare a b = Lt -> Ascii.compare b c = Lt -> Ascii.compare a c = Lt.
Proof.
  unfold Ascii.compare. rewrite !N.compare_lt_iff. apply N.lt_trans.
Qed.

Lemma string_compare_lt_trans :
  forall a b c : string,
    String.compare a b = Lt -> String.compare b c = Lt -> String.compare a c = Lt.
Proof.
  induction a as [|x a IH]; intros [|y b] [|z c] Hab Hbc; cbn [String.compare] in *;
    try discriminate; try reflexivity.
  destruct (Ascii.compare x y) eqn:Hxy; try discriminate Hab.
  - apply Ascii.compare_eq_iff in Hxy. subst y.
    destruct (Ascii.compare x z); try discriminate Hbc; [|reflexivity].
    exact (IH b c Hab Hbc).
  - destruct (Ascii.compare y z) eqn:Hyz; try discriminate Hbc.
    + apply Ascii.compare_eq_iff in Hyz. subst z. rewrite Hxy. reflexivity.
    + rewrite (ascii_compare_lt_trans x y z Hxy Hyz). reflexivity.
Qed.

(** [a] not after [b] and [b] before [c]: [a] is before [c]. *)
Lemma str_le_lt_trans (a b c : string) :
  str_ge b a = true -> str_lt b c = true -> str_lt a c = true.
Proof.
  rewrite str_ge_iff, !str_lt_iff. intros Hba Hbc.
  destruct (String.compare a b) eqn:Hab.
  - apply String.compare_eq_iff in Hab. subst b. exact Hbc.
  - exact (string_compare_lt_trans a b c Hab Hbc).
  - rewrite String.compare_antisym, Hab in Hba. exfalso. apply Hba. reflexivity.
Qed.

Lemma newer_first_trans (x y z : StargazerEvent.t) :
  newer_first x y -> newer_first y z -> newer_first x z.
Proof.
  unfold newer_first. intros Hxy Hyz.
  destruct (str_ge (StargazerEvent.starred_at x) (StargazerEvent.starred_at z)) eqn:Hxz;
    [reflexivity|].
  unfold str_ge in Hxz.
  destruct (str_lt (StargazerEvent.starred_at x) (StargazerEvent.starred_at z)) eqn:Hlt;
    [|discriminate Hxz].
  pose proof (str_le_lt_trans _ _ _ Hxy Hlt) as Hyz'.
  unfold str_ge in Hyz. rewrite Hyz' in Hyz. discriminate Hyz.
Qed.

Lemma StronglySorted_app_inv {A : Type} (R : A -> A -> Prop) (l1 l2 : list A) :
  StronglySorted R (l1 ++ l2) ->
  StronglySorted R l2 /\ (forall a b, In a l1 -> In b l2 -> R a b).
Proof.
  induction l1 as [|x l1 IH]; cbn [app]; intro H.
  - split; [exact H | intros a b []].
  - apply StronglySorted_inv in H. destruct H as [Hs Hx].
    destruct (IH Hs) as [H2 Hcross]. split; [exact H2|].
    intros a b [<-|Ha] Hb.
    + rewrite Forall_forall in Hx. apply Hx. apply in_or_app. right. exact Hb.
    + exact (Hcross a b Ha Hb).
Qed.

Lemma newest_firstb_sorted (l : list StargazerEvent.t) :
  newest_firstb l = true -> StronglySorted newer_first l.
Proof.
  intro H. apply Sorted_StronglySorted; [intros x y z; apply newer_first_trans|].
  induction l as [|a l IH]; [constructor|].
  destruct l as [|b l]; [repeat constructor|].
  cbn [newest_firstb] in H. apply andb_prop in H. destruct H as [Hab Hrest].
  constructor; [exact (IH Hrest) | constructor; exact Hab].
Qed.

(** After a page that ends before the boundary, a list that gives the
    newest event first holds no event of the window. *)
Lemma nothing_in_window_after (s : string) (data rest : list StargazerEvent.t) :
  StronglySorted newer_first (data ++ rest) ->
  oldest_before s data = true ->
  count_in_window s rest = 0.
Proof.
  intros Hsorted Hold. apply count_in_window_none. apply Forall_forall. intros e He.
  unfold oldest_before in Hold.
  destruct (nth_error data (List.length data - 1)) as [oldest|] eqn:Hnth;
    [|discriminate Hold].
  apply nth_error_In in Hnth.
  destruct (StronglySorted_app_inv _ _ _ Hsorted) as [_ Hcross].
  specialize (Hcross oldest e Hnth He). unfold newer_first in Hcross.
  unfold in_window, str_ge. rewrite (str_le_lt_trans _ _ _ Hcross Hold). reflexivity.
Qed.

Lemma getStarsThisYear_loop_newest_first (remote : Remote) (owner repo s : string) :
  forall (k fuel : nat) (n page : Z),
    (k < fuel)%nat ->
    Forall (full_stargazer_page remote owner repo) (pagesFrom page k) ->
    ok (fetchStargazers remote owner repo perPage (page + Z.of_nat k)) = true ->
    Z.of_nat (List.length (eventsOf remote owner repo (page + Z.of_nat k))) < perPage ->
    StronglySorted newer_first
      (flat_map (eventsOf remote owner repo) (pagesFrom page (S k))) ->
    snd (getStarsThisYear_loop fuel remote owner repo s n page)
      = Returned (n + count_in_window s
                        (flat_map (eventsOf remote owner repo) (pagesFrom page (S k)))) /\
    (List.length (fst (getStarsThisYear_loop fuel remote owner repo s n page)) <= S k)%nat.
Proof.
  induction k as [|k IH]; intros fuel n page Hfuel Hfull Hok Hshort Hsorted;
    (destruct fuel as [|fuel]; [lia|]).
  - rewrite Z.add_0_r in Hok, Hshort.
    rewrite (getStarsThisYear_loop_short _ _ _ _ _ _ _ Hok Hshort).
    cbn [pagesFrom flat_map fst snd List.length]. rewrite app_nil_r.
    split; [reflexivity | lia].
  - cbn [pagesFrom] in Hfull. inversion Hfull as [|p ps Hp Hps]; subst.
    change (flat_map (eventsOf remote owner repo) (pagesFrom page (S (S k))))
      with (eventsOf remote owner repo page
              ++ flat_map (eventsOf remote owner repo) (pagesFrom (page + 1) (S k)))
      in *.
    rewrite count_in_window_app.
    destruct (oldest_before s (eventsOf remote owner repo page)) eqn:Hold.
    + rewrite (nothing_in_window_after s _ _ Hsorted Hold), Z.add_0_r.
      destruct Hp as [Hokp Hfullp]. unfold eventsOf in *.
      cbn [getStarsThisYear_loop]. rewrite Hokp, Hold. cbn [negb].
      destruct (Z.eqb_spec (Z.of_nat (List.length
                  (json (fetchStargazers remote owner repo perPage page)))) 0);
        [unfold perPage in *; lia|].
      cbn [fst snd List.length]. rewrite count_page_filter.
      split; [reflexivity | lia].
    + rewrite (getStarsThisYear_loop_goes_on fuel remote owner repo s n page
                 (conj Hp Hold)).
      cbn [fst snd List.length].
      destruct (StronglySorted_app_inv _ _ _ Hsorted) as [Hrest _].
      replace (page + Z.of_nat (S k)) with (page + 1 + Z.of_nat k) in Hok, Hshort by lia.
      destruct (IH fuel (n + count_in_window s (eventsOf remote owner repo page))
                  (page + 1) ltac:(lia) Hps Hok Hshort Hrest) as [Hout Hlen].
      rewrite Hout. split; [f_equal; lia | lia].
Qed.

(** X8: on a stargazer list that gives the newest event first ([k] full
    pages followed by a served page of fewer than 100 events), the early
    stop loses nothing: the call returns the number of events of the
    whole list that are not before the boundary, also when it stops
    before the last page; it requests at most the [k + 1] pages. *)
Theorem X8_early_stop_is_exact_newest_first :
  forall (remote : Remote) (owner repo s : string) (k fuel : nat),
    Forall (full_stargazer_page remote owner repo) (pagesFrom 1 k) ->
    ok (fetchStargazers remote owner repo perPage (1 + Z.of_nat k)) = true ->
    Z.of_nat (List.length (eventsOf remote owner repo (1 + Z.of_nat k))) < perPage ->
    StronglySorted newer_first (flat_map (eventsOf remote owner repo) (pagesFrom 1 (S k))) ->
    (k < fuel)%nat ->
    snd (getStarsThisYear_loop fuel remote owner repo s 0 1)
      = Returned (count_in_window s
                    (flat_map (eventsOf remote owner repo) (pagesFrom 1 (S k)))) /\
    (List.length (fst (getStarsThisYear_loop fuel remote owner repo s 0 1)) <= S k)%nat.
Proof.
  intros remote owner repo s k fuel Hfull Hok Hshort Hsorted Hfuel.
  destruct (getStarsThisYear_loop_newest_first remote owner repo s k fuel 0 1
              Hfuel Hfull Hok Hshort Hsorted) as [Hout Hlen].
  rewrite Z.add_0_l in Hout. split; assumption.
Qed.

(** Three pages, newest first: the call stops on the second with 199,
    the number of events of 2025 of the three pages. *)
Lemma X8_early_stop_is_exact_newest_first_witness :
  snd (getStarsThisYear_loop 5 Examples.remote_newest_first "ryoppippi" "repo"
         Examples.boundary2025 0 1)
    = Returned (count_in_window Examples.boundary2025
                  (flat_map (eventsOf Examples.remote_newest_first "ryoppippi" "repo")
                     (pagesFrom 1 3))) /\
  (List.length (fst (getStarsThisYear_loop 5 Examples.remote_newest_first "ryoppippi" "repo"
                       Examples.boundary2025 0 1)) <= 3)%nat.
Proof.
  refine (X8_early_stop_is_exact_newest_first Examples.remote_newest_first
            "ryoppippi" "repo" Examples.boundary2025 2 5 _ _ _ _ _).
  - repeat constructor; vm_compute; discriminate.
  - reflexivity.
  - reflexivity.
  - apply newest_firstb_sorted. vm_compute. reflexivity.
  - lia.
Defined.

(** ** The table of the report *)

Lemma StronglySorted_app_l {A : Type} (R : A -> A -> Prop) (l1 l2 : list A) :
  StronglySorted R (l1 ++ l2) -> StronglySorted R l1.
Proof.
  induction l1 as [|x l1 IH]; cbn [app]; intro H; [constructor|].
  apply StronglySorted_inv in H. destruct H as [Hs Hx].
  constructor; [exact (IH Hs)|].
  apply Forall_app in Hx. exact (proj1 Hx).
Qed.

Lemma StronglySorted_filter {A : Type} (R : A -> A -> Prop) (f : A -> bool) (l : list A) :
  StronglySorted R l -> StronglySorted R (filter f l).
Proof.
  induction 1 as [|x l Hl IH Hx]; cbn [filter]; [constructor|].
  destruct (f x); [|exact IH].
  constructor; [exact IH|].
  rewrite Forall_forall in *. intros y Hy. apply Hx.
  apply filter_In in Hy. exact (proj1 Hy).
Qed.

Lemma table_rows (results : list RepoStarResult.t) (rows : list RepoStarResult.t)
    (w : Widths) :
  table results = Some (rows, w) ->
  rows = firstn 10 (reposWithNewStars results) /\ rows <> [].
Proof.
  unfold table, top10.
  destruct (firstn 10 (reposWithNewStars results)) as [|r rs]; [discriminate|].
  intro H. injection H as <- _. split; [reflexivity|discriminate].
Qed.

(** X9: the table shows at most 10 rows, all with a count above 0, in
    descending order of count, and they are the top of the ranking: a
    result with a greater count than a shown row is shown too, and when
    fewer than 10 rows are shown every result with a count above 0 is
    among them. *)
Theorem X9_table_shows_the_top_of_the_ranking :
  forall (year : Z) (collected rows : list RepoStarResult.t) (w : Widths),
    shown (report year collected) = Some (rows, w) ->
    (List.length rows <= 10)%nat /\
    Forall (fun r => 0 < RepoStarResult.starsThisYear r) rows /\
    StronglySorted descending rows /\
    (forall r, In r rows -> In r collected) /\
    (forall r r',
        In r rows -> In r' collected ->
        RepoStarResult.starsThisYear r < RepoStarResult.starsThisYear r' ->
        In r' rows) /\
    ((List.length rows < 10)%nat ->
     forall r', In r' collected -> 0 < RepoStarResult.starsThisYear r' -> In r' rows).
Proof.
  intros year collected rows w H. cbn [report shown] in H.
  apply table_rows in H. destruct H as [Hrows _].
  set (ranked := reposWithNewStars (sortResults collected)) in *.
  assert (Hsplit : ranked = rows ++ skipn 10 ranked)
    by (rewrite Hrows; symmetry; apply firstn_skipn).
  assert (Hsorted : StronglySorted descending ranked)
    by (apply StronglySorted_filter, sortResults_descending).
  assert (Hranked : forall r, In r ranked <->
                              In r collected /\ 0 < RepoStarResult.starsThisYear r).
  { intro r. unfold ranked, reposWithNewStars. rewrite filter_In, Z.ltb_lt.
    split; intros [Hin Hpos]; (split; [|exact Hpos]).
    - eapply Permutation_in; [apply Permutation_sym, Array_sort_perm | exact Hin].
    - eapply Permutation_in; [apply Array_sort_perm | exact Hin]. }
  assert (Hsub : forall r, In r rows -> In r ranked)
    by (intros r Hr; rewrite Hsplit; apply in_or_app; left; exact Hr).
  split; [rewrite Hrows; apply firstn_le_length|].
  split; [apply Forall_forall; intros r Hr; apply Hranked, Hsub, Hr|].
  split; [rewrite Hsplit in Hsorted; exact (StronglySorted_app_l _ _ _ Hsorted)|].
  split; [intros r Hr; apply Hranked, Hsub, Hr|].
  split.
  - intros r r' Hr Hr' Hlt.
    assert (Hin : In r' ranked).
    { apply Hranked. split; [exact Hr'|].
      pose proof (proj2 (proj1 (Hranked r) (Hsub r Hr))). lia. }
    rewrite Hsplit in Hin. apply in_app_or in Hin. destruct Hin as [Hin|Hin]; [exact Hin|].
    rewrite Hsplit in Hsorted.
    destruct (StronglySorted_app_inv _ _ _ Hsorted) as [_ Hcross].
    specialize (Hcross r r' Hr Hin). unfold descending in Hcross. lia.
  - intros Hfew r' Hr' Hpos.
    assert (Hall : rows = ranked).
    { rewrite Hrows. apply firstn_all2.
      rewrite Hrows, length_firstn in Hfew. lia. }
    rewrite Hall. apply Hranked. split; assumption.
Qed.

(** Twelve results with counts 1 to 12: the ten greatest are shown. *)
Lemma X9_table_shows_the_top_of_the_ranking_witness :
  (List.length
     (map (fun n => resultOf Examples.repoA (Z.of_nat n)) (rev (seq 3 10))) <= 10)%nat.
Proof.
  refine (proj1 (X9_table_shows_the_top_of_the_ranking 2025
                   (map (fun n => resultOf Examples.repoA (Z.of_nat n)) (seq 1 12))
                   (map (fun n => resultOf Examples.repoA (Z.of_nat n)) (rev (seq 3 10)))
                   {| maxNameLen := 1; maxStarsLen := 2; maxTotalLen := 1 |} _)).
  reflexivity.
Defined.

Lemma shownRows_report (year : Z) (collected : list RepoStarResult.t) :
  shownRows (report year collected)
    = firstn 10 (reposWithNewStars (sortResults collected)).
Proof.
  unfold shownRows. cbn [report shown]. unfold table, top10.
  destruct (firstn 10 (reposWithNewStars (sortResults collected))); reflexivity.
Qed.

Lemma sumZ_app (l1 l2 : list Z) : sumZ (l1 ++ l2) = sumZ l1 + sumZ l2.
Proof.
  unfold sumZ. induction l1 as [|x l1 IH]; cbn [app fold_right]; lia.
Qed.

Lemma sumZ_nonneg (l : list Z) : Forall (fun x => 0 <= x) l -> 0 <= sumZ l.
Proof.
  unfold sumZ. induction 1; cbn [fold_right]; lia.
Qed.

Lemma sum_reposWithNewStars (l : list RepoStarResult.t) :
  Forall (fun r => 0 <= RepoStarResult.starsThisYear r) l ->
  sumZ (map RepoStarResult.starsThisYear (reposWithNewStars l))
    = sumZ (map RepoStarResult.starsThisYear l).
Proof.
  unfold reposWithNewStars, sumZ.
  induction 1 as [|r l Hr _ IH]; [reflexivity|].
  cbn [filter map fold_right].
  destruct (Z.ltb_spec 0 (RepoStarResult.starsThisYear r)); cbn [map fold_right]; lia.
Qed.

(** The counts the aggregation collects are not negative. *)
Lemma aggregate_counts_nonneg (fuel : nat) (clock : Clock) (remote : Remote)
    (order : list nat) (username : string) (repos : list Repository.t)
    (collected : list RepoStarResult.t) :
  aggregate fuel clock remote order username repos = Returned collected ->
  Forall (fun r => 0 <= RepoStarResult.starsThisYear r) collected.
Proof.
  intro Hagg. apply Forall_forall. intros res Hres.
  apply In_nth_error in Hres. destruct Hres as [i Hi].
  destruct (nth_error (starredRepos repos) i) as [r|] eqn:Hnth.
  - destruct (aggregate_nth _ _ _ _ _ _ _ i r Hagg Hnth) as (n & Hn & Hres).
    rewrite Hi in Hres. injection Hres as ->.
    pose proof (getStarsThisYear_count_bounds _ _ _ _ _ _ _ Hn). cbn. lia.
  - apply nth_error_None in Hnth.
    rewrite <- (aggregate_length _ _ _ _ _ _ _ Hagg) in Hnth.
    apply nth_error_None in Hnth. congruence.
Qed.

(** X10: in the report of a run no count is negative; the total of the
    year printed in the summary is at least the sum of the counts of the
    rows shown, and it is that sum when no more than 10 repositories have
    new stars: the table then accounts for the whole total. *)
Theorem X10_total_and_rows_of_a_report :
  forall (fuel : nat) (clock : Clock) (remote : Remote) (order : list nat)
         (username : string) (rep : Report),
    main fuel clock remote order username = Returned rep ->
    Forall (fun r => 0 <= RepoStarResult.starsThisYear r) (results rep) /\
    sumZ (map RepoStarResult.starsThisYear (shownRows rep)) <= summaryStarsThisYear rep /\
    ((List.length (reposWithNewStars (results rep)) <= 10)%nat ->
     summaryStarsThisYear rep = sumZ (map RepoStarResult.starsThisYear (shownRows rep))).
Proof.
  intros fuel clock remote order username rep H.
  apply main_Returned in H. destruct H as (repos & collected & _ & Hagg & ->).
  rewrite shownRows_report. cbn [report results summaryStarsThisYear].
  assert (Hnonneg : Forall (fun r => 0 <= RepoStarResult.starsThisYear r)
                      (sortResults collected)).
  { eapply Permutation_Forall; [apply Array_sort_perm|].
    exact (aggregate_counts_nonneg _ _ _ _ _ _ _ Hagg). }
  split; [exact Hnonneg|].
  unfold totalStarsThisYear. rewrite fold_left_sum, Z.add_0_l.
  rewrite <- (sum_reposWithNewStars _ Hnonneg).
  set (ranked := reposWithNewStars (sortResults collected)).
  split.
  - rewrite <- (firstn_skipn 10 ranked) at 2. rewrite map_app, sumZ_app.
    assert (0 <= sumZ (map RepoStarResult.starsThisYear (skipn 10 ranked))); [|lia].
    apply sumZ_nonneg. apply Forall_forall. intros x Hx.
    apply in_map_iff in Hx. destruct Hx as (r & <- & Hr).
    assert (Hin : In r ranked)
      by (rewrite <- (firstn_skipn 10 ranked); apply in_or_app; right; exact Hr).
    unfold ranked, reposWithNewStars in Hin. apply filter_In in Hin.
    destruct Hin as [_ Hpos]. apply Z.ltb_lt in Hpos. lia.
  - intro Hfew. rewrite firstn_all2 by exact Hfew. reflexivity.
Qed.

(** The account of the example: the total 3 is the count of the row A. *)
Lemma X10_total_and_rows_of_a_report_witness :
  sumZ (map RepoStarResult.starsThisYear
          (shownRows (report 2025 [resultOf Examples.repoA 3; resultOf Examples.repoB 0])))
    <= summaryStarsThisYear
         (report 2025 [resultOf Examples.repoA 3; resultOf Examples.repoB 0]).
Proof.
  refine (proj1 (proj2 (X10_total_and_rows_of_a_report 3 (Examples.utc 2025)
                          Examples.remote_abc [] "ryoppippi"
                          (report 2025 [resultOf Examples.repoA 3;
                                        resultOf Examples.repoB 0]) _))).
  reflexivity.
Defined.

(** X11: when no listed repository has a star, the run requests no
    stargazer page, whatever the stargazer endpoint would answer, and
    returns an empty report: no result, both totals 0, no table. *)
Theorem X11_account_without_stars :
  forall (fuel : nat) (clock : Clock) (remote : Remote) (order : list nat)
         (username : string) (repos : list Repository.t),
    snd (getPublicRepos fuel remote username) = Returned repos ->
    Forall (fun r => Repository.stargazers_count r <= 0) repos ->
    stargazer_requests fuel clock remote username repos = [] /\
    main fuel clock remote order username
      = Returned {| currentYear := yearAtStart clock;
                    results := [];
                    summaryStarsThisYear := 0;
                    summaryStarsAllTime := 0;
                    shown := None |}.
Proof.
  intros fuel clock remote order username repos Hlist Hnone.
  assert (Hstarred : starredRepos repos = []).
  { clear Hlist. unfold starredRepos.
    induction Hnone as [|r repos Hr _ IH]; [reflexivity|].
    cbn [filter]. destruct (Z.ltb_spec 0 (Repository.stargazers_count r)); [lia|exact IH]. }
  split.
  - unfold stargazer_requests, tasks. rewrite Hstarred. reflexivity.
  - unfold main. rewrite Hlist. cbn [bind]. unfold aggregate, tasks.
    rewrite Hstarred.
    change (map snd (Array_map (task fuel clock remote username) []))
      with (map (@Returned RepoStarResult.t) []).
    rewrite Promise_all_fulfils. reflexivity.
Qed.

(** Two repositories without stars, a stargazer endpoint that fails. *)
Lemma X11_account_without_stars_witness :
  main 3 (Examples.utc 2025) Examples.remote_no_stars [] "ryoppippi"
    = Returned {| currentYear := 2025;
                  results := [];
                  summaryStarsThisYear := 0;
                  summaryStarsAllTime := 0;
                  shown := None |}.
Proof.
  refine (proj2 (X11_account_without_stars 3 (Examples.utc 2025)
                   Examples.remote_no_stars [] "ryoppippi"
                   [Examples.repoC; Examples.repoC] _ _)).
  - reflexivity.
  - repeat constructor; vm_compute; discriminate.
Defined.

(** ** The lines of the table *)

(** The number of decimal digits of a number does not decrease when the
    number grows. *)
Lemma length_string_of_uint (d : Decimal.uint) :
  String.length (NilEmpty.string_of_uint d) = Decimal.nb_digits d.
Proof.
  induction d; cbn [NilEmpty.string_of_uint Decimal.nb_digits String.length];
    congruence.
Qed.

Lemma usize_nb_digits (d : Decimal.uint) :
  DecimalPos.Unsigned.usize d = N.of_nat (Decimal.nb_digits d).
Proof.
  induction d; cbn [DecimalPos.Unsigned.usize Decimal.nb_digits];
    try reflexivity; rewrite IHd; lia.
Qed.

(* value of big-endian digits, upper bound *)
Lemma of_lu_rev_upper (d : Decimal.uint) :
  (DecimalPos.Unsigned.of_lu (Decimal.rev d) < 10 ^ DecimalPos.Unsigned.usize d)%N.
Proof.
  induction d; unfold Decimal.rev in *; cbn [Decimal.revapp DecimalPos.Unsigned.usize];
    [ cbn; lia | .. ];
    rewrite DecimalPos.Unsigned.of_lu_revapp, N.pow_succ_r';
    fold (Decimal.rev d); cbn [DecimalPos.Unsigned.of_lu];
    unfold Decimal.rev; set (P := (10 ^ DecimalPos.Unsigned.usize d)%N) in *;
    lia.
Qed.

Lemma of_lu_rev_lower (d : Decimal.uint) :
  leading_nonzero d ->
  (10 ^ (DecimalPos.Unsigned.usize d - 1) <= DecimalPos.Unsigned.of_lu (Decimal.rev d))%N.
Proof.
  destruct d; cbn [leading_nonzero]; intro H; try contradiction;
    unfold Decimal.rev; cbn [Decimal.revapp DecimalPos.Unsigned.usize];
    rewrite DecimalPos.Unsigned.of_lu_revapp;
    replace (N.succ (DecimalPos.Unsigned.usize d) - 1)%N with (DecimalPos.Unsigned.usize d) by lia;
    cbn [DecimalPos.Unsigned.of_lu];
    set (P := (10 ^ DecimalPos.Unsigned.usize d)%N); lia.
Qed.

Lemma to_uint_leading_nonzero (p : positive) : leading_nonzero (Pos.to_uint p).
Proof.
  pose proof (DecimalN.Unsigned.to_of (Pos.to_uint p)) as H.
  change (N.of_uint (Pos.to_uint p)) with (N.of_uint (N.to_uint (Npos p))) in H.
  rewrite DecimalN.Unsigned.of_to in H. cbn [N.to_uint] in H.
  pose proof (DecimalPos.Unsigned.to_uint_nonzero p) as Hnz.
  pose proof (DecimalPos.Unsigned.to_uint_nonnil p) as Hnn.
  destruct (Pos.to_uint p) as [|d| | | | | | | | |] eqn:E; cbn [leading_nonzero]; try exact I.
  - apply Hnn. reflexivity.
  - unfold Decimal.unorm in H. rewrite DecimalFacts.nzhead_D0 in H.
    destruct (Decimal.nzhead d) eqn:Hd.
    + injection H as H'. subst d. apply Hnz. reflexivity.
    + exact (DecimalFacts.nzhead_nonzero d _ (eq_trans Hd (eq_sym H))).
    + discriminate H.
    + discriminate H.
    + discriminate H.
    + discriminate H.
    + discriminate H.
    + discriminate H.
    + discriminate H.
    + discriminate H.
    + discriminate H.
Qed.

Lemma value_to_uint (p : positive) :
  DecimalPos.Unsigned.of_lu (Decimal.rev (Pos.to_uint p)) = Npos p.
Proof.
  rewrite <- DecimalPos.Unsigned.of_uint_alt. apply DecimalPos.Unsigned.of_to.
Qed.

Lemma digits_pos_mono (p q : positive) :
  (p <= q)%positive ->
  (Decimal.nb_digits (Pos.to_uint p) <= Decimal.nb_digits (Pos.to_uint q))%nat.
Proof.
  intro Hle.
  pose proof (of_lu_rev_lower _ (to_uint_leading_nonzero p)) as Hlow.
  pose proof (of_lu_rev_upper (Pos.to_uint q)) as Hup.
  rewrite value_to_uint in Hlow, Hup. rewrite !usize_nb_digits in *.
  destruct (Nat.le_gt_cases (Decimal.nb_digits (Pos.to_uint p))
              (Decimal.nb_digits (Pos.to_uint q))) as [H|H]; [exact H|].
  exfalso.
  assert (Hpow : (10 ^ N.of_nat (Decimal.nb_digits (Pos.to_uint q))
                  <= 10 ^ (N.of_nat (Decimal.nb_digits (Pos.to_uint p)) - 1))%N)
    by (apply N.pow_le_mono_r; lia).
  lia.
Qed.

Lemma length_String_of_pos (p : positive) :
  String.length (String_of (Zpos p)) = Decimal.nb_digits (Pos.to_uint p).
Proof.
  unfold String_of. cbn [Z.to_int NilZero.string_of_int]. unfold NilZero.string_of_uint.
  pose proof (DecimalPos.Unsigned.to_uint_nonnil p) as Hnn.
  destruct (Pos.to_uint p) eqn:E; try (rewrite <- E at 1; rewrite length_string_of_uint, E; reflexivity).
  contradiction.
Qed.

Lemma length_String_of_mono (a b : Z) :
  0 <= a <= b -> length_of (String_of a) <= length_of (String_of b).
Proof.
  unfold length_of. intros [Ha Hab]. apply inj_le.
  destruct a as [|p|p]; [|..].
  - destruct b as [|q|q]; [apply Nat.le_refl| |lia].
    rewrite length_String_of_pos. cbn.
    pose proof (to_uint_leading_nonzero q).
    destruct (Pos.to_uint q); cbn in *; try contradiction; lia.
  - destruct b as [|q|q]; try lia.
    rewrite !length_String_of_pos. apply digits_pos_mono. lia.
  - lia.
Qed.

Lemma length_of_append (a b : string) :
  length_of (a ++ b) = length_of a + length_of b.
Proof.
  unfold length_of. induction a as [|c a IH]; cbn [append String.length]; lia.
Qed.

Lemma length_of_spaces (n : nat) : length_of (spaces n) = Z.of_nat n.
Proof.
  unfold length_of. induction n as [|n IH]; cbn [spaces String.length]; lia.
Qed.

Lemma length_of_nonneg (s : string) : 0 <= length_of s.
Proof. unfold length_of. lia. Qed.

(** Padding gives the target length, or leaves a longer string alone. *)
Lemma length_of_padStart (s : string) (targetLength : Z) :
  length_of (padStart s targetLength) = Z.max (length_of s) targetLength.
Proof.
  unfold padStart. rewrite length_of_append, length_of_spaces.
  pose proof (length_of_nonneg s). lia.
Qed.

Lemma length_of_padEnd (s : string) (targetLength : Z) :
  length_of (padEnd s targetLength) = Z.max (length_of s) targetLength.
Proof.
  unfold padEnd. rewrite length_of_append, length_of_spaces.
  pose proof (length_of_nonneg s). lia.
Qed.

Lemma In_mapi_from_bound {A B : Type} (f : nat -> A -> B) (l : list A) (y : B) :
  forall start,
    In y (mapi_from f start l) ->
    exists i x, (i < start + List.length l)%nat /\ In x l /\ y = f i x.
Proof.
  induction l as [|x l IH]; intros start Hin; cbn [mapi_from] in Hin.
  - destruct Hin.
  - destruct Hin as [E|Hin].
    + exists start, x. cbn [List.length]. repeat split; [lia | left; reflexivity |].
      symmetry. exact E.
    + destruct (IH _ Hin) as (i & x' & Hi & Hx' & E).
      exists i, x'. cbn [List.length]. repeat split; [lia | right; exact Hx' | exact E].
Qed.

(** The length of a line, field by field. *)
Lemma length_of_row (w : Widths) (index : nat) (repo : RepoStarResult.t) :
  length_of (row w index repo)
    = 15
      + Z.max (length_of (String_of (Z.of_nat index + 1))) 2
      + Z.max (length_of (RepoStarResult.name repo)) (maxNameLen w)
      + Z.max (length_of (String_of (RepoStarResult.starsThisYear repo))) (maxStarsLen w)
      + Z.max (length_of (String_of (RepoStarResult.totalStars repo
                                     - RepoStarResult.starsThisYear repo)))
          (maxTotalLen w)
      + Z.max (length_of (String_of (RepoStarResult.totalStars repo))) (maxTotalLen w).
Proof.
  unfold row. rewrite !length_of_append, !length_of_padStart, length_of_padEnd.
  change (length_of "   ") with 3. change (length_of ". ") with 2.
  change (length_of "  +") with 3. change (length_of " (") with 2.
  change (length_of " -> ") with 4. change (length_of ")") with 1.
  lia.
Qed.

(** X12: when every row shown has a count of the year between 0 and its
    total, the table is aligned: there is one line per row, and all the
    lines have the same length, fixed by the three column widths.  (The
    "before" column holds the total minus the count of the year, which
    then has no more digits than the total.) *)
Theorem X12_table_lines_are_aligned :
  forall (results rows : list RepoStarResult.t) (w : Widths),
    table results = Some (rows, w) ->
    Forall (fun r => 0 <= RepoStarResult.starsThisYear r <= RepoStarResult.totalStars r)
      rows ->
    List.length (tableLines results) = List.length rows /\
    Forall (fun line => length_of line = lineLength w) (tableLines results).
Proof.
  intros results rows w Htable Hrows.
  unfold tableLines. rewrite Htable. unfold Array_map.
  split; [apply length_mapi_from|].
  pose proof (table_rows _ _ _ Htable) as [Hfirst _].
  assert (Hten : (List.length rows <= 10)%nat)
    by (rewrite Hfirst; apply firstn_le_length).
  unfold table in Htable.
  destruct (top10 (reposWithNewStars results)) as [|r rs]; [discriminate Htable|].
  injection Htable as <- <-.
  apply Forall_forall. intros line Hline.
  apply In_mapi_from_bound in Hline. destruct Hline as (i & x & Hi & Hx & ->).
  rewrite Forall_forall in Hrows. specialize (Hrows x Hx).
  rewrite length_of_row. unfold lineLength.
  destruct (Math_max_isMaxOver (fun r => length_of (RepoStarResult.name r)) r rs)
    as [Hname _].
  destruct (Math_max_isMaxOver
              (fun r => length_of (String_of (RepoStarResult.starsThisYear r))) r rs)
    as [Hstars _].
  destruct (Math_max_isMaxOver
              (fun r => length_of (String_of (RepoStarResult.totalStars r))) r rs)
    as [Htotal _].
  specialize (Hname x Hx). specialize (Hstars x Hx). specialize (Htotal x Hx).
  cbn beta in Hname, Hstars, Htotal.
  assert (Hrank : length_of (String_of (Z.of_nat i + 1)) <= length_of (String_of 10))
    by (apply length_String_of_mono; cbn [List.length] in Hi, Hten; lia).
  change (length_of (String_of 10)) with 2 in Hrank.
  assert (Hbefore : length_of (String_of (RepoStarResult.totalStars x
                                          - RepoStarResult.starsThisYear x))
                    <= length_of (String_of (RepoStarResult.totalStars x)))
    by (apply length_String_of_mono; lia).
  unfold widths. cbn [maxNameLen maxStarsLen maxTotalLen]. lia.
Qed.

(** Two rows, totals of one and of two digits. *)
Lemma X12_table_lines_are_aligned_witness :
  Forall (fun line => length_of line
                      = lineLength {| maxNameLen := 1; maxStarsLen := 1; maxTotalLen := 2 |})
    (tableLines [resultOf Examples.repoB 7; resultOf Examples.repoA 3]).
Proof.
  refine (proj2 (X12_table_lines_are_aligned
                   [resultOf Examples.repoB 7; resultOf Examples.repoA 3]
                   [resultOf Examples.repoB 7; resultOf Examples.repoA 3]
                   {| maxNameLen := 1; maxStarsLen := 1; maxTotalLen := 2 |} _ _)).
  - reflexivity.
  - repeat constructor; vm_compute; discriminate.
Defined.

(** The two lines of that table. *)
Example tableLines_two_rows :
  tableLines [resultOf Examples.repoB 7; resultOf Examples.repoA 3]
    = ["    1. B  +7 ( 3 -> 10)"%string; "    2. A  +3 ( 2 ->  5)"%string].
Proof. reflexivity. Qed.

(** A count of the year above the total gives a negative "before", one
    character too many for its column. *)
Example tableLines_count_above_total :
  tableLines [resultOf Examples.repoA 6]
    = ["    1. A  +6 (-1 -> 5)"%string] /\
  lineLength {| maxNameLen := 1; maxStarsLen := 1; maxTotalLen := 1 |} = 21 /\
  length_of "    1. A  +6 (-1 -> 5)" = 22.
Proof. repeat split. Qed.

(** ** The Repository Lister and the run as a whole *)

(** X13: the loop of the Repository Lister has no bound of its own
    either: against a remote that serves a full page of repositories for
    every page number, it requests page after page and never returns. *)
Theorem X13_lister_never_settles_on_endless_pages :
  forall (remote : Remote) (username : string),
    (forall page, 1 <= page -> full_page remote username page) ->
    forall fuel,
      getPublicRepos fuel remote username = (listRequests username fuel, Pending).
Proof.
  intros remote username Hfull fuel.
  assert (Hall : forall k page, 1 <= page ->
                   Forall (full_page remote username) (pagesFrom page k)).
  { induction k as [|k IH]; intros page Hpage; cbn [pagesFrom]; constructor.
    - apply Hfull. exact Hpage.
    - apply IH. lia. }
  unfold getPublicRepos, listRequests.
  replace fuel with (fuel + 0)%nat at 1 by lia.
  rewrite (getPublicRepos_loop_prefix remote username fuel 0 [] 1 (Hall fuel 1 ltac:(lia))).
  cbn [getPublicRepos_loop fst snd]. rewrite app_nil_r. reflexivity.
Qed.

(** A remote that answers every page of the list with the same page. *)
Lemma X13_lister_never_settles_on_endless_pages_witness :
  snd (getPublicRepos 40 Examples.remote_endless_list "ryoppippi") = Pending.
Proof.
  rewrite (X13_lister_never_settles_on_endless_pages Examples.remote_endless_list
             "ryoppippi").
  - reflexivity.
  - intros page _. split; [reflexivity | vm_compute; discriminate].
Defined.

Lemma getPublicRepos_member (fuel : nat) (remote : Remote) (username : string)
    (repos : list Repository.t) (r : Repository.t) :
  snd (getPublicRepos fuel remote username) = Returned repos ->
  In r repos ->
  exists page,
    In (ListRepos username perPage page) (fst (getPublicRepos fuel remote username)) /\
    In r (json (fetchRepos remote username perPage page)) /\
    Repository.private r = false.
Proof.
  intros H Hr. unfold getPublicRepos in *.
  rewrite (getPublicRepos_loop_result remote username fuel [] 1 repos H) in Hr.
  cbn [app] in Hr. apply in_flat_map in Hr. destruct Hr as (page & Hpage & Hr).
  unfold public in Hr. apply filter_In in Hr. destruct Hr as [Hr Hpub].
  exists page. repeat split.
  - rewrite getPublicRepos_loop_pages. apply in_map. exact Hpage.
  - exact Hr.
  - destruct (Repository.private r); [discriminate Hpub | reflexivity].
Qed.

(** X14: every stargazer request of a run names a repository that a
    requested page of the repository list served as not private and with
    at least one star: the run asks for the stargazers of no other
    repository. *)
Theorem X14_stargazers_requested_for_public_starred_repositories :
  forall (fuel : nat) (clock : Clock) (remote : Remote) (username : string)
         (repos : list Repository.t) (request : Request),
    snd (getPublicRepos fuel remote username) = Returned repos ->
    In request (stargazer_requests fuel clock remote username repos) ->
    exists r listPage page,
      In (ListRepos username perPage listPage) (fst (getPublicRepos fuel remote username)) /\
      In r (json (fetchRepos remote username perPage listPage)) /\
      Repository.private r = false /\
      0 < Repository.stargazers_count r /\
      request = ListStargazers username (Repository.name r) perPage page.
Proof.
  intros fuel clock remote username repos request Hlist Hin.
  destruct (stargazer_requests_eligible _ _ _ _ _ _ Hin) as (r & page & Hr & Hpos & ->).
  destruct (getPublicRepos_member _ _ _ _ r Hlist Hr) as (listPage & Hreq & Hjson & Hpub).
  exists r, listPage, page. repeat split; assumption.
Qed.

(** The account with a private repository of 42 stars: the stargazers
    of A are requested, those of S are not. *)
Lemma X14_stargazers_requested_for_public_starred_repositories_witness :
  exists r listPage page,
    In (ListRepos "ryoppippi" perPage listPage)
       (fst (getPublicRepos 3 Examples.remote_with_private "ryoppippi")) /\
    In r (json (fetchRepos Examples.remote_with_private "ryoppippi" perPage listPage)) /\
    Repository.private r = false /\
    0 < Repository.stargazers_count r /\
    ListStargazers "ryoppippi" "A" perPage 1
      = ListStargazers "ryoppippi" (Repository.name r) perPage page.
Proof.
  refine (X14_stargazers_requested_for_public_starred_repositories 3 (Examples.utc 2025)
            Examples.remote_with_private "ryoppippi" [Examples.repoA; Examples.repoB]
            (ListStargazers "ryoppippi" "A" perPage 1) _ _).
  - reflexivity.
  - vm_compute. left. reflexivity.
Defined.

Lemma sum_starredRepos (repos : list Repository.t) :
  Forall (fun r => 0 <= Repository.stargazers_count r) repos ->
  sumZ (map Repository.stargazers_count (starredRepos repos))
    = sumZ (map Repository.stargazers_count repos).
Proof.
  unfold starredRepos, sumZ.
  induction 1 as [|r repos Hr _ IH]; [reflexivity|].
  cbn [filter map fold_right].
  destruct (Z.ltb_spec 0 (Repository.stargazers_count r)); cbn [map fold_right]; lia.
Qed.

Lemma aggregate_totalStars (fuel : nat) (clock : Clock) (remote : Remote)
    (order : list nat) (username : string) (repos : list Repository.t)
    (collected : list RepoStarResult.t) :
  aggregate fuel clock remote order username repos = Returned collected ->
  map RepoStarResult.totalStars collected
    = map Repository.stargazers_count (starredRepos repos).
Proof.
  intro Hagg. apply nth_error_ext. intro i. rewrite !nth_error_map.
  destruct (nth_error (starredRepos repos) i) as [r|] eqn:Hnth.
  - destruct (aggregate_nth _ _ _ _ _ _ _ i r Hagg Hnth) as (n & _ & ->). reflexivity.
  - apply nth_error_None in Hnth.
    rewrite <- (aggregate_length _ _ _ _ _ _ _ Hagg) in Hnth.
    apply nth_error_None in Hnth. rewrite Hnth. reflexivity.
Qed.

(** X15: the all-time total of a report is the sum of the star counts
    of all the repositories the Repository Lister returned: leaving out
    the repositories without stars before counting changes no total
    (star counts being non-negative, as the API gives them). *)
Theorem X15_all_time_total_covers_every_listed_repository :
  forall (fuel : nat) (clock : Clock) (remote : Remote) (order : list nat)
         (username : string) (repos : list Repository.t) (rep : Report),
    snd (getPublicRepos fuel remote username) = Returned repos ->
    Forall (fun r => 0 <= Repository.stargazers_count r) repos ->
    main fuel clock remote order username = Returned rep ->
    summaryStarsAllTime rep = sumZ (map Repository.stargazers_count repos).
Proof.
  intros fuel clock remote order username repos rep Hlist Hnonneg H.
  apply main_Returned in H. destruct H as (repos' & collected & Hlist' & Hagg & ->).
  rewrite Hlist in Hlist'. injection Hlist' as <-.
  cbn [report summaryStarsAllTime]. unfold totalStarsAllTime.
  rewrite fold_left_sum, Z.add_0_l.
  rewrite <- (sum_starredRepos repos Hnonneg),
    <- (aggregate_totalStars _ _ _ _ _ _ _ Hagg).
  apply sumZ_perm, Permutation_map, Permutation_sym, Array_sort_perm.
Qed.

(** The account of the example: 5 + 10 + 0. *)
Lemma X15_all_time_total_covers_every_listed_repository_witness :
  summaryStarsAllTime (report 2025 [resultOf Examples.repoA 3; resultOf Examples.repoB 0])
    = sumZ (map Repository.stargazers_count
              [Examples.repoA; Examples.repoB; Examples.repoC]).
Proof.
  refine (X15_all_time_total_covers_every_listed_repository 3 (Examples.utc 2025)
            Examples.remote_abc [] "ryoppippi"
            [Examples.repoA; Examples.repoB; Examples.repoC]
            (report 2025 [resultOf Examples.repoA 3; resultOf Examples.repoB 0]) _ _ _).
  - reflexivity.
  - repeat constructor; vm_compute; discriminate.
  - reflexivity.
Defined.

(** A list that gives the oldest event first, which the early stop is
    not made for: the first page ends before the boundary, the call
    stops there and the hundred events of 2025 on page 2 are not
    counted. *)
Example getStarsThisYear_oldest_first :
  getStarsThisYear 5 (Examples.utc 2025)
    {| fetchRepos := fetchRepos Examples.remote_abc;
       fetchStargazers := fun _ _ _ page =>
         if page =? 1 then Examples.respond (repeat (Examples.star "2024-03-01T08:00:00Z") 100)
         else if page =? 2 then
           Examples.respond (repeat (Examples.star "2025-03-01T08:00:00Z") 100)
         else Examples.respond [] |}
    0 "ryoppippi" "repo"
  = ([ListStargazers "ryoppippi" "repo" 100 1], Returned 0).
Proof. reflexivity. Qed.
